(** * fish_classifier: the training loop of [src/models/train_model.py]

    A shallow embedding of [train_model] and [save_results].  The torch,
    optuna and azureml objects the function drives (random generator,
    network, optimiser, trial handle) are collaborators of the code: they
    enter as the fields of a [backend], and the library behaviour a
    statement relies on is a hypothesis of that statement.  The disk the
    call writes to and the release of torch it runs on enter the same
    way.  Calls that
    leave the process (files, the Azure run, the trial) are recorded in a
    trace; [print] and [logging] are left out, as is the choice of the
    device. *)

From Stdlib Require Import String ZArith List Bool Lia QArith Permutation Arith.
Import ListNotations.
Open Scope Z_scope.

(** ** Python floats, as far as line 77 needs them

    [int(0.85 * len(train_set))] multiplies two binary64 numbers and
    truncates.  A non-negative binary64 value is kept as [mant * 2^expo];
    [round53] is round-to-nearest, ties-to-even, to 53 significant bits.
    The exponent is unbounded: lengths near the overflow threshold of
    binary64 are out of reach of a tensor in memory. *)
Module Float.

Record float := mk { mant : Z; expo : Z }.

Definition round53 (m e : Z) : float :=
  let bits := Z.log2 m + 1 in
  if bits <=? 53 then mk m e
  else
    let sh := bits - 53 in
    let q := Z.shiftr m sh in
    let r := m - Z.shiftl q sh in
    let half := Z.shiftl 1 (sh - 1) in
    let q' := if (half <? r) || ((r =? half) && Z.odd q) then q + 1 else q in
    mk q' (e + sh).

(** [float(n)] for a non-negative Python int. *)
Definition of_int (n : Z) : float := round53 n 0.

(** The literal [0.85]: the binary64 number nearest to 17/20. *)
Definition lit_0_85 : float := mk 7656119366529843 (-53).

Definition mul (x y : float) : float :=
  round53 (mant x * mant y) (expo x + expo y).

(** [int(x)] on a non-negative float: truncation. *)
Definition to_int (x : float) : Z :=
  if 0 <=? expo x then Z.shiftl (mant x) (expo x)
  else Z.shiftr (mant x) (- expo x).

End Float.

(** Line 77: [train_n = int(0.85 * len(train_set))]. *)
Definition train_n (len : nat) : nat :=
  Z.to_nat (Float.to_int (Float.mul Float.lit_0_85 (Float.of_int (Z.of_nat len)))).

(** Line 78: [val_n = len(train_set) - train_n]. *)
Definition val_n (len : nat) : nat := (len - train_n len)%nat.


(** ** Outcomes of a Python call *)

Inductive exn : Type :=
| ZeroDivisionError   (* [x / 0] *)
| ValueError          (* argument checks of torch *)
| StopIteration       (* [next] on an exhausted iterator *)
| TrialPruned         (* [optuna.TrialPruned] *)
| FileNotFoundError   (* a write into a directory that is not there *)
| AttributeError.     (* a method the object does not have *)

Inductive result (A : Type) : Type :=
| Return (a : A)
| Raise (e : exn).
Arguments Return {A} a.
Arguments Raise {A} e.

(** ** Paths and observable effects *)

Inductive path : Type :=
| ProjectDir                         (* [project_dir] *)
| Joinpath (p : path) (s : string)   (* [p.joinpath(s)] *)
| ProjectStr (s : string)            (* [str(project_dir) + s] *)
| Str (s : string)                   (* a plain string *)
| Dirname (p : path).                (* [os.path.dirname(p)] *)

(** The four lists of lines 128 and 206-211. *)
Record history := mkHistory {
  train_losses : list Q;
  train_accuracies : list Q;
  val_losses : list Q;
  val_accuracies : list Q
}.

Definition no_history : history := mkHistory [] [] [] [].

Inductive event (net : Type) : Type :=
| GdownDownload (dest : path)
| RunLog (name : string) (v : Q)
| RunLogList (name : string) (vs : list Q)
| RunLogImage (name : string)
| RunComplete
| Makedirs (p : path)
| TorchSave (p : path) (state_dict : net)
| PickleDump (p : path) (d : history)
| Savefig (p : path)
| TrialReport (v : Q) (step : nat)
| TrialShouldPrune (answer : bool).
Arguments GdownDownload {net}.
Arguments RunLog {net}.
Arguments RunLogList {net}.
Arguments RunLogImage {net}.
Arguments RunComplete {net}.
Arguments Makedirs {net}.
Arguments TorchSave {net}.
Arguments PickleDump {net}.
Arguments Savefig {net}.
Arguments TrialReport {net}.
Arguments TrialShouldPrune {net}.

(** An event that leaves an artifact (weights, statistics, plot) on disk. *)
Definition persists {net} (ev : event net) : bool :=
  match ev with
  | TorchSave _ _ | PickleDump _ _ | Savefig _ => true
  | _ => false
  end.

(** ** The collaborators

    [randperm] is [torch.randperm] on the global generator, [Classifier]
    builds the network (and, with it, the Adam state of line 124),
    [train_step] is lines 135-158 on one batch, [eval_step] lines 171-179;
    both hand back [loss.item()] and the column [top_class].  [report] and
    [should_prune] are the methods of an optuna trial.  [isdir] is the
    disk the call finds: which directories exist; [iter_next] says whether
    the loader iterators of the installed torch still have the method
    [next] that line 98 calls.  Python floats
    other than the one of line 77 are kept as rationals: the sums and
    quotients below are the exact ones, which the float operations round. *)
Record backend := {
  rng : Type;
  net : Type;
  trial : Type;
  manual_seed : Z -> rng;
  randperm : nat -> rng -> list nat * rng;
  Classifier : Q -> rng -> net * rng;
  train_step : Q -> net -> list nat -> rng -> (net * Q * list Z) * rng;
  eval_step : net -> list nat -> Q * list Z;
  report : trial -> Q -> nat -> trial;
  should_prune : trial -> bool;
  isdir : path -> bool;
  iter_next : bool
}.

(** The tensors of [training.pt]: only the length and the labels matter. *)
Record tensor_dataset := { len : nat; label : nat -> Z }.

(** The parameters of [train_model], but [trial]: the handle is an object
    shared with the caller and lives in the world ([None] when absent). *)
Record args := {
  trained_model_filepath : string;
  training_statistics_filepath : string;
  training_figures_filepath : string;
  use_azure : bool;
  epochs : Z;
  learning_rate : Q;
  dropout_p : Q;
  batch_size : Z;
  seed : Z;
  save_training_results : bool
}.

Definition default_args (m s f : string) : args :=
  {| trained_model_filepath := m; training_statistics_filepath := s;
     training_figures_filepath := f; use_azure := false; epochs := 1;
     learning_rate := 1 # 1000; dropout_p := 21 # 1000; batch_size := 250;
     seed := 0; save_training_results := true |}.

Definition with_epochs (a : args) (e : Z) : args :=
  {| trained_model_filepath := trained_model_filepath a;
     training_statistics_filepath := training_statistics_filepath a;
     training_figures_filepath := training_figures_filepath a;
     use_azure := use_azure a; epochs := e;
     learning_rate := learning_rate a; dropout_p := dropout_p a;
     batch_size := batch_size a; seed := seed a;
     save_training_results := save_training_results a |}.

Definition with_seed (a : args) (s : Z) : args :=
  {| trained_model_filepath := trained_model_filepath a;
     training_statistics_filepath := training_statistics_filepath a;
     training_figures_filepath := training_figures_filepath a;
     use_azure := use_azure a; epochs := epochs a;
     learning_rate := learning_rate a; dropout_p := dropout_p a;
     batch_size := batch_size a; seed := s;
     save_training_results := save_training_results a |}.

(** ** The world a call runs in

    [gen] is torch's global generator, [handle] the trial object behind the
    [trial] argument, [lists] the four list objects allocated on line 128,
    [trace] the effects so far, oldest first. *)
Record world (T : backend) := mkWorld {
  gen : rng T;
  handle : option (trial T);
  lists : history;
  trace : list (event (net T))
}.
Arguments mkWorld {T}.
Arguments gen {T}.
Arguments handle {T}.
Arguments lists {T}.
Arguments trace {T}.

(** State and exception monad: a raise keeps the world it happened in. *)
Definition M (T : backend) (A : Type) : Type := world T -> result A * world T.

Definition ret {T A} (a : A) : M T A := fun w => (Return a, w).

Definition raise {T A} (e : exn) : M T A := fun w => (Raise e, w).

Definition bind {T A B} (m : M T A) (k : A -> M T B) : M T B :=
  fun w =>
    match m w with
    | (Return a, w') => k a w'
    | (Raise e, w') => (Raise e, w')
    end.

Declare Scope py_scope.
Delimit Scope py_scope with py.
Notation "x <- m ;; k" := (bind m (fun x => k))
  (at level 61, m at next level, right associativity) : py_scope.
Notation "m ;;; k" := (bind m (fun _ => k))
  (at level 61, right associativity) : py_scope.
Open Scope py_scope.

Definition emit {T} (ev : event (net T)) : M T unit :=
  fun w => (Return tt, mkWorld (gen w) (handle w) (lists w) (trace w ++ [ev])).

(** Draw from the global generator. *)
Definition draw {T A} (f : rng T -> A * rng T) : M T A :=
  fun w => let (a, g) := f (gen w) in
           (Return a, mkWorld g (handle w) (lists w) (trace w)).

Definition set_gen {T} (g : rng T) : M T unit :=
  fun w => (Return tt, mkWorld g (handle w) (lists w) (trace w)).

Definition get_lists {T} : M T history := fun w => (Return (lists w), w).

Definition set_lists {T} (h : history) : M T unit :=
  fun w => (Return tt, mkWorld (gen w) (handle w) h (trace w)).

Definition get_handle {T} : M T (option (trial T)) :=
  fun w => (Return (handle w), w).

Definition set_handle {T} (t : trial T) : M T unit :=
  fun w => (Return tt, mkWorld (gen w) (Some t) (lists w) (trace w)).

Definition when {T} (b : bool) (m : M T unit) : M T unit :=
  if b then m else ret tt.

(** [for x in xs: s = body(x, s)], left as soon as the body raises. *)
Fixpoint for_each {T A S} (xs : list A) (body : A -> S -> M T S) (s : S) : M T S :=
  match xs with
  | [] => ret s
  | x :: xs' => s' <- body x s ;; for_each xs' body s'
  end.

(** Python's true division by an [int]. *)
Definition py_div {T} (x : Q) (n : Z) : M T Q :=
  if n =? 0 then raise ZeroDivisionError else ret (x / inject_Z n)%Q.

(** Writing a file into [dir]: [torch.save], [open(..., "wb")] and
    [savefig] raise [FileNotFoundError] when the directory is not there.
    [made] says that the code has created that directory itself. *)
Definition write {T} (made : bool) (dir : path) (ev : event (net T))
  : M T unit :=
  if made || isdir T dir then emit ev else raise FileNotFoundError.

(** Line 124: [optim.Adam] refuses a negative learning rate. *)
Definition Adam {T} (lr : Q) : M T unit :=
  if Qle_bool 0 lr then ret tt else raise ValueError.

(** ** torch.utils.data *)

(** [indices[offset - length : offset]] for the running offsets. *)
Fixpoint slices (indices : list nat) (lengths : list nat) : list (list nat) :=
  match lengths with
  | [] => []
  | n :: rest => firstn n indices :: slices (skipn n indices) rest
  end.

Definition random_split {T} (n : nat) (lengths : list nat) : M T (list (list nat)) :=
  if (list_sum lengths =? n)%nat then
    indices <- draw (randperm T n) ;;
    ret (slices indices lengths)
  else raise ValueError.

(** A [DataLoader] with [shuffle=True], [drop_last=False]: the subset it
    reads and its batch size. *)
Record loader := { subset : list nat; bsize : Z }.

(** The constructor: [BatchSampler] refuses a batch size below 1, and
    [RandomSampler] (in the torch releases that still have
    [dataiter.next()]) refuses an empty data source. *)
Definition DataLoader {T} (data : list nat) (b : Z) : M T loader :=
  if (length data =? 0)%nat then raise ValueError
  else if b <=? 0 then raise ValueError
  else ret {| subset := data; bsize := b |}.

(** [len(loader)]: [(len(sampler) + batch_size - 1) // batch_size]. *)
Definition loader_len (l : loader) : Z :=
  (Z.of_nat (length (subset l)) + bsize l - 1) / bsize l.

(** [BatchSampler.__iter__]: fill [batch], yield it when full, yield the
    rest at the end. *)
Fixpoint batch_sampler (b : nat) (batch : list nat) (sampler : list nat)
  : list (list nat) :=
  match sampler with
  | [] => if (0 <? length batch)%nat then [batch] else []
  | idx :: rest =>
      let batch' := batch ++ [idx] in
      if (length batch' =? b)%nat then batch' :: batch_sampler b [] rest
      else batch_sampler b batch' rest
  end.

(** One pass over a loader: a fresh permutation of the positions of the
    subset, read through the subset, cut into batches. *)
Definition iterate {T} (l : loader) : M T (list (list nat)) :=
  perm <- draw (randperm T (length (subset l))) ;;
  ret (batch_sampler (Z.to_nat (bsize l)) []
         (map (fun j => nth j (subset l) 0%nat) perm)).

(** ** [train_model] and [save_results] *)
Section TrainModel.

Variable T : backend.
Variable D : tensor_dataset.

(** Lines 159-160 and 180-181: the rows whose [top_class] is the label. *)
Definition count_correct (top_class : list Z) (batch : list nat) : Z :=
  Z.of_nat (List.length
    (filter (fun p => fst p =? label D (snd p)) (combine top_class batch))).

(** Lines 133-160, for one batch. *)
Definition train_batch (lr : Q) (batch : list nat) (s : net T * Q * Z)
  : M T (net T * Q * Z) :=
  let '(model, train_loss, train_correct) := s in
  out <- draw (train_step T lr model batch) ;;
  let '(model', loss, top_class) := out in
  ret (model', (train_loss + loss)%Q,
       train_correct + count_correct top_class batch).

(** Lines 169-181, for one batch. *)
Definition val_batch (model : net T) (batch : list nat) (s : Q * Z)
  : M T (Q * Z) :=
  let '(val_loss, val_correct) := s in
  let '(loss, top_class) := eval_step T model batch in
  ret ((val_loss + loss)%Q, val_correct + count_correct top_class batch).

Definition append_train_loss (x : Q) : M T unit :=
  h <- get_lists ;;
  set_lists (mkHistory (train_losses h ++ [x]) (train_accuracies h)
                       (val_losses h) (val_accuracies h)).

Definition append_train_accuracy (x : Q) : M T unit :=
  h <- get_lists ;;
  set_lists (mkHistory (train_losses h) (train_accuracies h ++ [x])
                       (val_losses h) (val_accuracies h)).

Definition append_val_loss (x : Q) : M T unit :=
  h <- get_lists ;;
  set_lists (mkHistory (train_losses h) (train_accuracies h)
                       (val_losses h ++ [x]) (val_accuracies h)).

Definition append_val_accuracy (x : Q) : M T unit :=
  h <- get_lists ;;
  set_lists (mkHistory (train_losses h) (train_accuracies h)
                       (val_losses h) (val_accuracies h ++ [x])).

(** Lines 184-187. *)
Definition finalize (trainloader valoader : loader)
  (train_loss : Q) (train_correct : Z) (val_loss : Q) (val_correct : Z)
  : M T unit :=
  x <- py_div train_loss (loader_len trainloader) ;;
  append_train_loss x ;;;
  x <- py_div (inject_Z train_correct)
         (Z.of_nat (List.length (subset trainloader))) ;;
  append_train_accuracy x ;;;
  x <- py_div val_loss (loader_len valoader) ;;
  append_val_loss x ;;;
  x <- py_div (inject_Z val_correct)
         (Z.of_nat (List.length (subset valoader))) ;;
  append_val_accuracy x.

(** Lines 130-195: both passes, then the four appends. *)
Definition run_epoch (lr : Q) (trainloader valoader : loader) (model : net T)
  : M T (net T) :=
  batches <- iterate trainloader ;;
  s <- for_each batches (train_batch lr) (model, 0%Q, 0) ;;
  let '(model', train_loss, train_correct) := s in
  batches <- iterate valoader ;;
  v <- for_each batches (val_batch model') (0%Q, 0) ;;
  let '(val_loss, val_correct) := v in
  finalize trainloader valoader train_loss train_correct val_loss val_correct ;;;
  ret model'.

(** Lines 197-203. *)
Definition prune_check (e : nat) : M T unit :=
  t <- get_handle ;;
  match t with
  | Some tr =>
      h <- get_lists ;;
      let tr' := report T tr (last (val_accuracies h) 0%Q) e in
      emit (TrialReport (last (val_accuracies h) 0%Q) e) ;;;
      set_handle tr' ;;;
      emit (TrialShouldPrune (should_prune T tr')) ;;;
      if should_prune T tr' then raise TrialPruned else ret tt
  | None => ret tt
  end.

(** The body of the loop of line 129. *)
Definition epoch (lr : Q) (trainloader valoader : loader) (e : nat)
  (model : net T) : M T (net T) :=
  model' <- run_epoch lr trainloader valoader model ;;
  prune_check e ;;;
  ret model'.

Local Open Scope string_scope.

(** Lines 232-307.  Only the Azure branch makes the directories it writes
    into (lines 257-269); the local branch relies on the disk, where the
    pickle goes into [statistics_dir], the plots into [figures_dir] and the
    weights into the directory of [model_path]. *)
Definition save_results
  (trained_model_filepath training_statistics_filepath
     training_figures_filepath : string)
  (model : net T) (train_val_dict : history) (use_azure : bool) : M T unit :=
  let statistics_dir := Joinpath ProjectDir training_statistics_filepath in
  let figures_dir := Joinpath ProjectDir training_figures_filepath in
  let model_path := Joinpath ProjectDir trained_model_filepath in
  let dict_path :=
    Joinpath (Joinpath ProjectDir training_statistics_filepath)
      "train_val_dict.pickle" in
  let l_fig_path :=
    Joinpath (Joinpath ProjectDir training_figures_filepath)
      "Training_Loss.pdf" in
  let a_fig_path :=
    Joinpath (Joinpath ProjectDir training_figures_filepath)
      "Training_Accuracy.pdf" in
  let figures_path := "./outputs/" ++ training_figures_filepath in
  let model_path :=
    if use_azure then Str ("./outputs/" ++ trained_model_filepath)
    else model_path in
  let dict_path :=
    if use_azure
    then Str ("./outputs/" ++ training_statistics_filepath
                ++ "train_val_dict.pickle")
    else dict_path in
  let l_fig_path :=
    if use_azure then Str (figures_path ++ "Training_Loss.pdf")
    else l_fig_path in
  let a_fig_path :=
    if use_azure then Str (figures_path ++ "Training_Accuracy.pdf")
    else a_fig_path in
  when use_azure
    (emit (Makedirs (Str "./outputs")) ;;;
     emit (Makedirs (Dirname model_path)) ;;;
     emit (Makedirs (Dirname dict_path)) ;;;
     emit (Makedirs (Str figures_path)) ;;;
     emit (RunLogList "Train loss" (train_losses train_val_dict)) ;;;
     emit (RunLogList "Train accuracy" (train_accuracies train_val_dict)) ;;;
     emit (RunLogList "Validation loss" (val_losses train_val_dict)) ;;;
     emit (RunLogList "Validation accuracy" (val_accuracies train_val_dict))) ;;;
  write use_azure (Dirname model_path) (TorchSave model_path model) ;;;
  write use_azure statistics_dir (PickleDump dict_path train_val_dict) ;;;
  when use_azure (emit (RunLogImage "Training loss curve")) ;;;
  write use_azure figures_dir (Savefig l_fig_path) ;;;
  when use_azure (emit (RunLogImage "Training accuracy curve")) ;;;
  write use_azure figures_dir (Savefig a_fig_path).

(** Lines 40-43: the argument is overwritten before it is used.  The
    numpy generator seeded on line 43 is never drawn from. *)
Definition reseed (seed : Z) : M T unit :=
  let seed := 0 in
  set_gen (manual_seed T seed).

(** Lines 47-63. *)
Definition azure_setup (a : args) : M T unit :=
  when (use_azure a)
    (emit (GdownDownload (ProjectStr "/data/processed/")) ;;;
     emit (RunLog "Learning rate" (learning_rate a)) ;;;
     emit (RunLog "Epochs" (inject_Z (epochs a))) ;;;
     emit (RunLog "Dropout" (dropout_p a))).

Local Close Scope string_scope.

(** Lines 77-79. *)
Definition split_data : M T (list nat * list nat) :=
  let train_n := train_n (len D) in
  let val_n := val_n (len D) in
  parts <- random_split (len D) [train_n; val_n] ;;
  match parts with
  | [train_data; val_data] => ret (train_data, val_data)
  | _ => raise ValueError
  end.

(** Lines 34-79: what the call does up to and including the split. *)
Definition splitter (a : args) : M T (list nat * list nat) :=
  reseed (seed a) ;;;
  azure_setup a ;;;
  split_data.

(** Lines 97-98: [dataiter.next()], a method that newer releases of torch
    no longer have. *)
Definition first_batch (trainloader : loader) : M T (list nat) :=
  dataiter <- iterate trainloader ;;
  if iter_next T then
    match dataiter with
    | [] => raise StopIteration
    | b :: _ => ret b
    end
  else raise AttributeError.

Definition is_some {A} (o : option A) : bool :=
  match o with Some _ => true | None => false end.

(** Lines 128-203. *)
Definition training_loop (a : args) (trainloader valoader : loader)
  (model : net T) : M T (net T) :=
  set_lists no_history ;;;
  for_each (seq 0 (Z.to_nat (epochs a)))
    (epoch (learning_rate a) trainloader valoader) model.

(** Lines 34-124: everything before the loop. *)
Definition prepare (a : args) : M T (loader * loader * net T) :=
  parts <- splitter a ;;
  let '(train_data, val_data) := parts in
  trainloader <- DataLoader train_data (batch_size a) ;;
  valoader <- DataLoader val_data (batch_size a) ;;
  first_batch trainloader ;;;
  model <- draw (Classifier T (dropout_p a)) ;;
  Adam (learning_rate a) ;;;
  ret (trainloader, valoader, model).

Definition train_model (a : args) : M T history :=
  p <- prepare a ;;
  let '(trainloader, valoader, model) := p in
  model <- training_loop a trainloader valoader model ;;
  train_val_dict <- get_lists ;;
  when (save_training_results a)
    (save_results (trained_model_filepath a) (training_statistics_filepath a)
       (training_figures_filepath a) model train_val_dict (use_azure a)) ;;;
  trial <- get_handle ;;
  when (use_azure a && negb (is_some trial)) (emit RunComplete) ;;;
  ret train_val_dict.

(** A call from outside: the caller's generator state and trial handle,
    nothing allocated or written yet. *)
Definition call (a : args) (trial : option (trial T)) (g : rng T)
  : result history * world T :=
  train_model a (mkWorld g trial no_history []).

End TrainModel.

(** ** A small concrete backend

    A counter for the generator (even states give the identity
    permutation, odd ones the reversed one), the number of optimiser steps
    for the network, a trial that records its reports and asks to prune
    once more than [k] of them have arrived, that is at epoch index [k],
    and a disk given by the directories it has. *)
Module Toy.

Definition perm (n : nat) (g : nat) : list nat * nat :=
  (if Nat.even g then seq 0 n else rev (seq 0 n), S g).

Definition step (lr : Q) (model : nat) (batch : list nat) (g : nat)
  : (nat * Q * list Z) * nat :=
  ((S model, 1 # 2, map (fun i => Z.of_nat i mod 2) batch), S g).

Definition eval (model : nat) (batch : list nat) : Q * list Z :=
  (1 # 4, map (fun _ => 0) batch).

Definition torch_with (disk : path -> bool) (next : bool) (k : nat)
  : backend :=
  {| rng := nat; net := nat; trial := list (Q * nat);
     manual_seed := Z.to_nat;
     randperm := perm;
     Classifier := fun _ g => (0%nat, S g);
     train_step := step;
     eval_step := eval;
     report := fun t v e => t ++ [(v, e)];
     should_prune := fun t => (k <? List.length t)%nat;
     isdir := disk;
     iter_next := next |}.

(** An older torch on the disk [disk]. *)
Definition torch_on (disk : path -> bool) (k : nat) : backend :=
  torch_with disk true k.

(** An older torch on a disk where every directory is there. *)
Definition torch (k : nat) : backend := torch_on (fun _ => true) k.

(** A disk that has the directory of the weights and nothing else. *)
Definition only_models (p : path) : bool :=
  match p with Dirname _ => true | _ => false end.

Definition data (n : nat) : tensor_dataset :=
  {| len := n; label := fun _ => 0 |}.

Definition run (e b : Z) : args :=
  {| trained_model_filepath := "models/trained_model.pth";
     training_statistics_filepath := "reports/";
     training_figures_filepath := "reports/figures/";
     use_azure := false; epochs := e;
     learning_rate := 1 # 1000; dropout_p := 21 # 1000; batch_size := b;
     seed := 0; save_training_results := true |}.

(** The world of a fresh process. *)
Definition start (k : nat) : world (torch k) :=
  mkWorld (T:=torch k) 0%nat None no_history [].

End Toy.

(** * Vocabulary of the statements *)

(** What the code asks of [torch.randperm]. *)
Definition randperm_ok (T : backend) : Prop :=
  forall n g, Permutation (fst (randperm T n g)) (seq 0 n).

Definition valid_loader (l : loader) : Prop :=
  subset l <> [] /\ 1 <= bsize l.

Definition loss_nonneg (T : backend) : Prop :=
  (forall lr m b g, (0 <= snd (fst (fst (train_step T lr m b g))))%Q) /\
  (forall m b, (0 <= fst (eval_step T m b))%Q).

Definition in_unit (x : Q) : Prop := (0 <= x /\ x <= 1)%Q.
Definition nonneg (x : Q) : Prop := (0 <= x)%Q.

Definition ranges (h : history) : Prop :=
  Forall nonneg (train_losses h) /\ Forall in_unit (train_accuracies h) /\
  Forall nonneg (val_losses h) /\ Forall in_unit (val_accuracies h).

Definition lengths (h : history) (n : nat) : Prop :=
  List.length (train_losses h) = n /\ List.length (train_accuracies h) = n /\
  List.length (val_losses h) = n /\ List.length (val_accuracies h) = n.

Definition push (h : history) (a b c d : Q) : history :=
  mkHistory (train_losses h ++ [a]) (train_accuracies h ++ [b])
            (val_losses h ++ [c]) (val_accuracies h ++ [d]).

Fixpoint well_batched (b : nat) (bs : list (list nat)) : Prop :=
  match bs with
  | [] => True
  | [x] => (1 <= List.length x <= b)%nat
  | x :: rest => List.length x = b /\ well_batched b rest
  end.

(** Events after which a run is still silent: no artifact on disk, no
    prune signal. *)
Definition signal {net} (ev : event net) : bool :=
  match ev with TrialShouldPrune true => true | _ => false end.

Definition quiet {net} (ev : event net) : bool :=
  negb (persists ev) && negb (signal ev).

Definition no_signal {net} (l : list (event net)) : Prop :=
  forallb (fun ev => negb (signal ev)) l = true.

Definition no_artifact {net} (l : list (event net)) : Prop :=
  forallb (fun ev => negb (persists ev)) l = true.

(** What [azure_setup] sends out. *)
Definition setup_events (T : backend) (a : args) : list (event (net T)) :=
  if use_azure a then
    [GdownDownload (ProjectStr "/data/processed/");
     RunLog "Learning rate" (learning_rate a);
     RunLog "Epochs" (inject_Z (epochs a));
     RunLog "Dropout" (dropout_p a)]
  else [].

Local Open Scope string_scope.

(** The events of [save_results], in order. *)
Definition save_events (T : backend) (m s f : string) (model : net T)
  (d : history) (az : bool) : list (event (net T)) :=
  if az then
    [Makedirs (Str "./outputs");
     Makedirs (Dirname (Str ("./outputs/" ++ m)));
     Makedirs (Dirname (Str ("./outputs/" ++ s ++ "train_val_dict.pickle")));
     Makedirs (Str ("./outputs/" ++ f));
     RunLogList "Train loss" (train_losses d);
     RunLogList "Train accuracy" (train_accuracies d);
     RunLogList "Validation loss" (val_losses d);
     RunLogList "Validation accuracy" (val_accuracies d);
     TorchSave (Str ("./outputs/" ++ m)) model;
     PickleDump (Str ("./outputs/" ++ s ++ "train_val_dict.pickle")) d;
     RunLogImage "Training loss curve";
     Savefig (Str (("./outputs/" ++ f) ++ "Training_Loss.pdf"));
     RunLogImage "Training accuracy curve";
     Savefig (Str (("./outputs/" ++ f) ++ "Training_Accuracy.pdf"))]
  else
    [TorchSave (Joinpath ProjectDir m) model;
     PickleDump (Joinpath (Joinpath ProjectDir s) "train_val_dict.pickle") d;
     Savefig (Joinpath (Joinpath ProjectDir f) "Training_Loss.pdf");
     Savefig (Joinpath (Joinpath ProjectDir f) "Training_Accuracy.pdf")].

(** Whether every write of [save_results] finds its directory. *)
Definition dirs_ready (T : backend) (m s f : string) (az : bool) : bool :=
  az || (isdir T (Dirname (Joinpath ProjectDir m))
         && isdir T (Joinpath ProjectDir s)
         && isdir T (Joinpath ProjectDir f)).

(** What [save_results] gets done: all of [save_events] when the
    directories are there, otherwise the writes before the first one that
    finds none. *)
Definition save_done (T : backend) (m s f : string) (model : net T)
  (d : history) (az : bool) : list (event (net T)) :=
  if az then save_events T m s f model d true
  else if isdir T (Dirname (Joinpath ProjectDir m)) then
    TorchSave (Joinpath ProjectDir m) model
    :: (if isdir T (Joinpath ProjectDir s) then
          PickleDump (Joinpath (Joinpath ProjectDir s) "train_val_dict.pickle") d
          :: (if isdir T (Joinpath ProjectDir f) then
                [Savefig (Joinpath (Joinpath ProjectDir f) "Training_Loss.pdf");
                 Savefig (Joinpath (Joinpath ProjectDir f)
                            "Training_Accuracy.pdf")]
              else [])
        else [])
  else [].

Local Close Scope string_scope.

(** The events after the loop: persistence when asked for, and the
    completion of the Azure run when there is one and no trial. *)
Definition closing_events (T : backend) (a : args) (model : net T)
  (d : history) (trial : option (trial T)) : list (event (net T)) :=
  (if save_training_results a
   then save_events T (trained_model_filepath a) (training_statistics_filepath a)
          (training_figures_filepath a) model d (use_azure a)
   else []) ++
  (if use_azure a && negb (is_some trial) then [RunComplete] else []).

(** The errors raised before the loop starts. *)
Definition before_loop (e : exn) : bool :=
  match e with
  | ValueError | StopIteration | AttributeError => true
  | _ => false
  end.

(** What a run of the loop leaves behind, from epoch [s] on. *)
Definition loop_post (T : backend) (s n : nat) (w : world T)
  (r : result (net T)) (w' : world T) : Prop :=
  match r with
  | Return _ =>
      exists added, trace w' = trace w ++ added /\ forallb quiet added = true /\
        lengths (lists w') (s + n)
  | Raise e =>
      e = TrialPruned /\
      exists added v k tr',
        trace w' = trace w ++ added ++ [TrialReport v k; TrialShouldPrune true] /\
        forallb quiet added = true /\ (s <= k < s + n)%nat /\
        lengths (lists w') (S k) /\
        handle w' = Some tr' /\ should_prune T tr' = true /\
        handle w <> None
  end.

(** Every way a call can end. *)
Definition call_post (T : backend) (D : tensor_dataset) (a : args)
  (w : world T) (r : result history) (w' : world T) : Prop :=
  match r with
  | Return d =>
      d = lists w' /\ lengths d (Z.to_nat (epochs a)) /\
      exists added model,
        trace w' =
          trace w ++ setup_events T a ++ added ++
          closing_events T a model d (handle w') /\
        forallb quiet added = true /\
        (save_training_results a = true ->
         dirs_ready T (trained_model_filepath a)
           (training_statistics_filepath a) (training_figures_filepath a)
           (use_azure a) = true)
  | Raise FileNotFoundError =>
      save_training_results a = true /\
      dirs_ready T (trained_model_filepath a) (training_statistics_filepath a)
        (training_figures_filepath a) (use_azure a) = false /\
      lengths (lists w') (Z.to_nat (epochs a)) /\
      exists added model,
        trace w' =
          trace w ++ setup_events T a ++ added ++
          save_done T (trained_model_filepath a)
            (training_statistics_filepath a) (training_figures_filepath a)
            model (lists w') (use_azure a) /\
        forallb quiet added = true
  | Raise TrialPruned =>
      exists added v k tr',
        trace w' =
          trace w ++ setup_events T a ++ added ++
          [TrialReport v k; TrialShouldPrune true] /\
        forallb quiet added = true /\
        (k < Z.to_nat (epochs a))%nat /\
        lengths (lists w') (S k) /\
        handle w' = Some tr' /\ should_prune T tr' = true /\
        handle w <> None
  | Raise e =>
      lists w' = lists w /\ handle w' = handle w /\
      trace w' = trace w ++ setup_events T a /\
      fst (prepare T D a w) = Raise e
  end.

(** ** What the trial and the Azure run get to see *)

Definition raised {A} (r : result A) : bool :=
  match r with Raise _ => true | Return _ => false end.

Definition pruned {A} (r : result A) : bool :=
  match r with Raise TrialPruned => true | _ => false end.

(** The calls on the trial handle for the accuracies [vs] of the epochs
    from [s] on: a report and a question per epoch; only the last question
    can be answered [True], and is when [fin] holds. *)
Fixpoint trial_events {net} (vs : list Q) (s : nat) (fin : bool)
  : list (event net) :=
  match vs with
  | [] => []
  | v :: rest =>
      TrialReport v s
        :: TrialShouldPrune (match rest with [] => fin | _ => false end)
        :: trial_events rest (S s) fin
  end.

Definition reports {net} (tr : list (event net)) : list (Q * nat) :=
  flat_map (fun ev => match ev with TrialReport v s => [(v, s)] | _ => [] end) tr.

Definition answers {net} (tr : list (event net)) : list bool :=
  flat_map (fun ev => match ev with TrialShouldPrune b => [b] | _ => [] end) tr.

Definition logged {net} (tr : list (event net)) : list (string * Q) :=
  flat_map (fun ev => match ev with RunLog n v => [(n, v)] | _ => [] end) tr.

Definition logged_lists {net} (tr : list (event net)) : list (string * list Q) :=
  flat_map (fun ev => match ev with RunLogList n vs => [(n, vs)] | _ => [] end) tr.

(** Events that need the Azure run, the download or a directory made. *)
Definition remote {net} (ev : event net) : bool :=
  match ev with
  | GdownDownload _ | RunLog _ _ | RunLogList _ _ | RunLogImage _
  | RunComplete | Makedirs _ => true
  | _ => false
  end.

(** What a call has sent out when it ends with [r] in the world [w']. *)
Definition call_trace (T : backend) (a : args) (trial : option (trial T))
  (r : result history) (w' : world T) (tail : list (event (net T)))
  : list (event (net T)) :=
  setup_events T a ++
  (if is_some trial
   then trial_events (val_accuracies (lists w')) 0 (pruned r)
   else []) ++
  tail.

(** * [src/models/train_model_azure.py]

    [main] drives the Azure ML SDK: every SDK call is an event of the
    trace, in the order the script makes it.  What the script reads back
    comes from a [service]: the files of [./dist] with their creation
    times, the URL a wheel is given, and the metrics of the finished run.
    [print] is left out. *)
Module Azure.

Inductive error : Type :=
| ValueError                        (* [max()] of an empty sequence *)
| UnboundLocalError (name : string) (* a local read before assignment *)
| KeyError (key : string)           (* [metrics[key]] *)
| IndexError.                       (* [[][-1]] *)

Inductive outcome (A : Type) : Type :=
| Done (a : A)
| Failed (e : error).
Arguments Done {A} a.
Arguments Failed {A} e.

Inductive value : Type :=
| VStr (s : string)
| VInt (z : Z)
| VFloat (q : Q)
| VBool (b : bool).

Inductive sdk : Type :=
| Environment (name : string)
| Workspace_from_config
| ComputeTarget (name : string)
| CondaDependencies_create (conda_packages pip_packages : list string)
| Add_private_pip_wheel (file_path : string)
| Add_pip_package (url : string)
| ScriptRunConfig (source_directory script : string)
    (arguments : option (list value))
| Experiment (name : string)
| Submit
| Wait_for_completion
| Get_metrics
| Get_file_names
| Register_model (model_path model_name : string)
    (tags : list (string * string)) (properties : list (string * value))
| Download_files (prefix output_directory : string)
| Walk (top : string).

Record service := {
  glob : string -> list string;
  getctime : string -> Q;
  wheel_url : string -> string;
  metrics : string -> option (list Q)
}.

Definition S (A : Type) : Type := list sdk -> outcome A * list sdk.

Definition ret {A} (a : A) : S A := fun t => (Done a, t).

Definition fail {A} (e : error) : S A := fun t => (Failed e, t).

Definition bind {A B} (m : S A) (k : A -> S B) : S B :=
  fun t =>
    match m t with
    | (Done a, t') => k a t'
    | (Failed e, t') => (Failed e, t')
    end.

Definition call (c : sdk) : S unit := fun t => (Done tt, t ++ [c]).

Declare Scope azure_scope.
Delimit Scope azure_scope with azure.
Notation "x <- m ;; k" := (bind m (fun x => k))
  (at level 61, m at next level, right associativity) : azure_scope.
Notation "m ;;; k" := (bind m (fun _ => k))
  (at level 61, right associativity) : azure_scope.
Local Open Scope azure_scope.
Local Open Scope string_scope.

(** Python's [max(xs, key=key)]: the first element with the largest key. *)
Fixpoint max_from (key : string -> Q) (best : string) (rest : list string)
  : string :=
  match rest with
  | [] => best
  | x :: rest' =>
      if Qle_bool (key x) (key best) then max_from key best rest'
      else max_from key x rest'
  end.

Definition max_by (key : string -> Q) (xs : list string) : S string :=
  match xs with
  | [] => fail ValueError
  | x :: rest => ret (max_from key x rest)
  end.

(** Reading a local that only some branches assign. *)
Definition load {A} (name : string) (v : option A) : S A :=
  match v with
  | Some x => ret x
  | None => fail (UnboundLocalError name)
  end.

(** [metrics[key][-1]]. *)
Definition final (m : string -> option (list Q)) (key : string) : S Q :=
  match m key with
  | None => fail (KeyError key)
  | Some [] => fail IndexError
  | Some (x :: l) => ret (last l x)
  end.

(** Lines 47-63; the missing comma glues two package names. *)
Definition pip_packages : list string :=
  ["azureml-defaults"; "torch"; "torchvision"; "pandas"; "numpy";
   "matplotlib"; "kornia"; "gdown"; "pillow"; "optuna";
   "hydra" ++ "hydra-core"; "sklearn"].

(** Lines 29-78: the environment with the newest wheel of [./dist]. *)
Definition environment (C : service) : S unit :=
  call (Environment "experiment-fish-classifier-final-model") ;;;
  call Workspace_from_config ;;;
  call (ComputeTarget "agicksgpu") ;;;
  call (CondaDependencies_create ["pip"] pip_packages) ;;;
  let folder_path := "./dist" in
  let file_type := "/*" in
  let files := glob C (folder_path ++ file_type) in
  latest_whl <- max_by (getctime C) files ;;
  let whl_path := latest_whl in
  call (Add_private_pip_wheel whl_path) ;;;
  let whl_url := wheel_url C whl_path in
  call (Add_pip_package whl_url).

(** The locals that lines 83-102 leave behind. *)
Record locals := {
  script : string;
  script_args : option (list value);
  e : option Z;
  lr : option Q
}.

(** Lines 83-102. *)
Definition configure (use_optuna train_final : bool) : locals :=
  if use_optuna then
    {| script := "hyperparameter_tuning.py"; script_args := None;
       e := None; lr := None |}
  else if train_final then
    {| script := "train_test.py"; script_args := None;
       e := None; lr := None |}
  else
    let e := 50 in
    let lr := 38434 # 100000000 in
    let dropout_p := 0%Q in
    {| script := "train_model_command_line.py";
       script_args :=
         Some [VStr "--epochs"; VInt e; VStr "--learning_rate"; VFloat lr;
               VStr "--use_azure"; VBool true;
               VStr "--dropout_p"; VFloat dropout_p];
       e := Some e; lr := Some lr |}.

(** Lines 104-118. *)
Definition experiment (v : locals) : S unit :=
  let experiment_folder := "./src/models" in
  call (ScriptRunConfig experiment_folder (script v) (script_args v)) ;;;
  call (Experiment "experiment-fish-classifier-final-model") ;;;
  call Submit ;;;
  call Wait_for_completion.

(** Lines 120-147. *)
Definition register (C : service) (v : locals) : S unit :=
  call Get_metrics ;;;
  call Get_file_names ;;;
  epochs <- load "e" (e v) ;;
  learning_rate <- load "lr" (lr v) ;;
  train_loss <- final (metrics C) "Train loss" ;;
  train_accuracy <- final (metrics C) "Train accuracy" ;;
  val_loss <- final (metrics C) "Validation loss" ;;
  val_accuracy <- final (metrics C) "Validation accuracy" ;;
  let model_props :=
    [("epochs", VInt epochs);
     ("learning_rate", VFloat learning_rate);
     ("Final train loss", VFloat train_loss);
     ("Final train accuracy", VFloat train_accuracy);
     ("Final validation loss", VFloat val_loss);
     ("Final validation accuracy", VFloat val_accuracy)] in
  call (Register_model "./outputs/models/trained_model.pth" "fish-classifier"
          [("Training data", "fish-classifier")] model_props).

(** Lines 149-156. *)
Definition download : S unit :=
  let download_folder := "azure-downloaded-files" in
  call (Download_files "outputs" download_folder) ;;;
  call (Walk download_folder).

Definition main (C : service) (use_optuna train_final : bool) : S unit :=
  environment C ;;;
  let v := configure use_optuna train_final in
  experiment v ;;;
  (if negb use_optuna then register C v else ret tt) ;;;
  download.

(** A run of the script from an empty trace. *)
Definition run (C : service) (use_optuna train_final : bool)
  : outcome unit * list sdk :=
  main C use_optuna train_final [].

(** The calls of the three stages that always run the same way. *)
Definition preamble : list sdk :=
  [Environment "experiment-fish-classifier-final-model";
   Workspace_from_config;
   ComputeTarget "agicksgpu";
   CondaDependencies_create ["pip"] pip_packages].

Definition submission (v : locals) : list sdk :=
  [ScriptRunConfig "./src/models" (script v) (script_args v);
   Experiment "experiment-fish-classifier-final-model";
   Submit;
   Wait_for_completion].

Definition downloads : list sdk :=
  [Download_files "outputs" "azure-downloaded-files";
   Walk "azure-downloaded-files"].

(** The four series [register] reads, in the order it reads them. *)
Definition metric_names : list string :=
  ["Train loss"; "Train accuracy"; "Validation loss"; "Validation accuracy"].

(** The call a successful [register] makes. *)
Definition registration (epochs : Z) (learning_rate : Q)
  (train_loss train_accuracy val_loss val_accuracy : Q) : sdk :=
  Register_model "./outputs/models/trained_model.pth" "fish-classifier"
    [("Training data", "fish-classifier")]
    [("epochs", VInt epochs);
     ("learning_rate", VFloat learning_rate);
     ("Final train loss", VFloat train_loss);
     ("Final train accuracy", VFloat train_accuracy);
     ("Final validation loss", VFloat val_loss);
     ("Final validation accuracy", VFloat val_accuracy)].

Definition is_register (c : sdk) : bool :=
  match c with Register_model _ _ _ _ => true | _ => false end.

Definition is_download (c : sdk) : bool :=
  match c with Download_files _ _ => true | _ => false end.

Definition is_upload (c : sdk) : bool :=
  match c with Add_private_pip_wheel _ => true | _ => false end.

End Azure.

(** ** Concrete inputs for the Azure side *)

(** The toy arguments, as an Azure job. *)
Definition azure_job (e b : Z) : args :=
  {| trained_model_filepath := "models/trained_model.pth";
     training_statistics_filepath := "reports/";
     training_figures_filepath := "reports/figures/";
     use_azure := true; epochs := e;
     learning_rate := 1 # 1000; dropout_p := 21 # 1000; batch_size := b;
     seed := 0; save_training_results := true |}.

Fixpoint assoc {A} (k : string) (l : list (string * A)) : option A :=
  match l with
  | [] => None
  | (k', v) :: rest => if String.eqb k k' then Some v else assoc k rest
  end.

(** A service over a listing of [./dist] with creation times and the
    series of a finished run. *)
Definition toy_service (dist : list (string * Q))
  (series : list (string * list Q)) : Azure.service :=
  {| Azure.glob := fun _ => map fst dist;
     Azure.getctime :=
       fun f => match assoc f dist with Some t => t | None => 0%Q end;
     Azure.wheel_url := fun f => ("https://wheels/" ++ f)%string;
     Azure.metrics := fun k => assoc k series |}.

Definition toy_dist : list (string * Q) :=
  [("./dist/fish-0.1.whl"%string, 10%Q);
   ("./dist/fish-0.3.whl"%string, 30%Q);
   ("./dist/fish-0.2.whl"%string, 20%Q);
   ("./dist/fish-0.3b.whl"%string, 30%Q)].

(** The series logged by the toy call of two epochs as an Azure job. *)
Definition toy_series : list (string * list Q) :=
  logged_lists
    (trace (snd (call (Toy.torch 5) (Toy.data 20) (azure_job 2 4) None 0%nat))).

(** * Facts *)

(** ** The float of line 77 *)

Lemma shiftr_shiftl_rem m sh : 0 <= sh ->
  m - Z.shiftl (Z.shiftr m sh) sh = m mod 2 ^ sh.
Proof.
  intros Hsh. rewrite Z.shiftr_div_pow2, Z.shiftl_mul_pow2 by lia.
  pose proof (Z.div_mod m (2 ^ sh)) as H.
  assert (2 ^ sh <> 0) by (apply Z.pow_nonzero; lia).
  specialize (H ltac:(assumption)). lia.
Qed.

Lemma round53_small m e : 0 <= m < 2 ^ 53 -> Float.round53 m e = Float.mk m e.
Proof.
  intros [H0 H1]. unfold Float.round53.
  destruct (Z.eq_dec m 0) as [->|Hm]; [reflexivity|].
  assert (Z.log2 m < 53) by (apply Z.log2_lt_pow2; lia).
  destruct (Z.leb_spec (Z.log2 m + 1) 53); [reflexivity | lia].
Qed.

Lemma round53_large m e :
  2 ^ 53 <= m ->
  exists sh q r q',
    1 <= sh /\ sh = Z.log2 m - 52 /\
    2 ^ sh * 2 ^ 52 <= m < 2 ^ sh * 2 ^ 53 /\
    m = q * 2 ^ sh + r /\ 0 <= r < 2 ^ sh /\
    ((q' = q /\ 2 * r <= 2 ^ sh) \/ (q' = q + 1 /\ 2 ^ sh <= 2 * r)) /\
    Float.round53 m e = Float.mk q' (e + sh).
Proof.
  intros Hm.
  assert (Hlog : 53 <= Z.log2 m) by (apply Z.log2_le_pow2; lia).
  set (sh := Z.log2 m - 52).
  assert (Hsh : 1 <= sh) by (unfold sh; lia).
  assert (Hpos : 0 < 2 ^ sh) by (apply Z.pow_pos_nonneg; lia).
  exists sh, (m / 2 ^ sh), (m mod 2 ^ sh).
  pose proof (Z.log2_spec m ltac:(lia)) as [Hlo Hhi].
  assert (E1 : 2 ^ Z.log2 m = 2 ^ sh * 2 ^ 52).
  { rewrite <- Z.pow_add_r by lia. f_equal. unfold sh. lia. }
  assert (E2 : 2 ^ Z.succ (Z.log2 m) = 2 ^ sh * 2 ^ 53).
  { rewrite <- Z.pow_add_r by lia. f_equal. unfold sh. lia. }
  assert (Ehalf : 2 ^ sh = 2 * 2 ^ (sh - 1)).
  { rewrite <- Z.pow_succ_r by lia. f_equal. lia. }
  pose proof (Z.mod_pos_bound m (2 ^ sh) Hpos) as Hr.
  pose proof (Z.div_mod m (2 ^ sh) ltac:(lia)) as Hdm.
  unfold Float.round53.
  destruct (Z.leb_spec (Z.log2 m + 1) 53) as [Hc|Hc]; [lia|].
  replace (Z.log2 m + 1 - 53) with sh by (unfold sh; lia).
  rewrite shiftr_shiftl_rem by lia.
  rewrite Z.shiftr_div_pow2 by lia.
  rewrite Z.shiftl_mul_pow2 by lia. rewrite Z.mul_1_l.
  destruct ((2 ^ (sh - 1) <? m mod 2 ^ sh)
            || ((m mod 2 ^ sh =? 2 ^ (sh - 1)) && Z.odd (m / 2 ^ sh))) eqn:Hb.
  - exists (m / 2 ^ sh + 1). repeat split; lia.
  - exists (m / 2 ^ sh). repeat split; lia.
Qed.

(** Below [2^48] the float product truncates to the exact floor.  With
    [m] the mantissa of [0.85], [20 m = 17 * 2^53 - 4]; so the exact
    product lies [n / (5 * 2^53)] below [17 n / 20], and rounding to the
    53 leading bits moves it by at most half a unit in the last place:
    enough to reach a multiple of 20 from below, too little to cross the
    next integer. *)
Lemma int_0_85 n : 0 <= n < 2 ^ 48 ->
  Float.to_int (Float.mul Float.lit_0_85 (Float.of_int n)) = 17 * n / 20.
Proof.
  intros Hn.
  unfold Float.of_int. rewrite round53_small by lia.
  unfold Float.mul, Float.lit_0_85; cbn [Float.mant Float.expo].
  set (A := 7656119366529843 * n).
  pose proof (Z.div_mod (17 * n) 20 ltac:(lia)) as Hdm.
  pose proof (Z.mod_pos_bound (17 * n) 20 ltac:(lia)) as Hrho.
  set (t := 17 * n / 20) in *. set (rho := (17 * n) mod 20) in *.
  assert (HA : 20 * A = 17 * 2 ^ 53 * n - 4 * n) by (unfold A; lia).
  destruct (Z_lt_le_dec A (2 ^ 53)) as [Hs|Hl].
  - rewrite round53_small by (unfold A in *; lia).
    unfold Float.to_int; cbn [Float.mant Float.expo].
    change (0 <=? -53 + 0) with false. cbv iota.
    rewrite Z.shiftr_div_pow2 by lia.
    assert (n <= 1) by (unfold A in Hs; lia).
    rewrite Z.div_small by (unfold A in *; lia).
    lia.
  - destruct (round53_large A (-53 + 0) Hl)
      as (sh & q & r & q' & Hsh & Hshe & HS & HAq & Hr & Hq' & ->).
    assert (HA101 : A < 2 ^ 101) by (unfold A; lia).
    assert (Hsh48 : sh <= 48).
    { assert (Z.log2 A < 101) by (apply Z.log2_lt_pow2; lia). lia. }
    unfold Float.to_int; cbn [Float.mant Float.expo].
    destruct (Z.leb_spec 0 (-53 + 0 + sh)); [lia|].
    rewrite Z.shiftr_div_pow2 by lia.
    replace (- (-53 + 0 + sh)) with (53 - sh) by lia.
    assert (HSK : 2 ^ sh * 2 ^ (53 - sh) = 2 ^ 53).
    { rewrite <- Z.pow_add_r by lia. f_equal. lia. }
    assert (HS48 : 2 ^ sh <= 2 ^ 48) by (apply Z.pow_le_mono_r; lia).
    assert (HS2 : 2 ^ 1 <= 2 ^ sh) by (apply Z.pow_le_mono_r; lia).
    set (S := 2 ^ sh) in *. set (K := 2 ^ (53 - sh)) in *.
    assert (HK : 0 < K) by (unfold K; apply Z.pow_pos_nonneg; lia).
    change (2 ^ 1) with 2 in HS2.
    assert (H5S : 4 * n < 5 * S) by lia.
    symmetry. apply Z.div_unique with (r := q' - t * K).
    2: lia.
    left. split.
    + destruct (Z_lt_le_dec (q' - t * K) 0) as [Hneg|]; [exfalso|lia].
      assert (q' * S <= t * 2 ^ 53 - S) by nia.
      destruct Hq' as [[-> H2r]|[-> H2r]]; nia.
    + destruct (Z_lt_le_dec (q' - t * K) K) as [|Hbig]; [lia|exfalso].
      assert ((t + 1) * 2 ^ 53 <= q' * S) by nia.
      destruct Hq' as [[-> H2r]|[-> H2r]]; nia.
Qed.

Lemma train_n_floor n : Z.of_nat n < 2 ^ 48 -> train_n n = (17 * n / 20)%nat.
Proof.
  intros Hn. unfold train_n. rewrite int_0_85 by lia.
  rewrite Z2Nat.inj_div by lia.
  rewrite Z2Nat.inj_mul by lia. rewrite Nat2Z.id. reflexivity.
Qed.

Lemma train_n_le n : Z.of_nat n < 2 ^ 48 -> (train_n n <= n)%nat.
Proof.
  intros Hn. rewrite train_n_floor by assumption.
  apply Nat.Div0.div_le_upper_bound. lia.
Qed.

Lemma train_n_pos n : Z.of_nat n < 2 ^ 48 -> (2 <= n)%nat -> (1 <= train_n n)%nat.
Proof.
  intros Hn H2. rewrite train_n_floor by assumption.
  apply Nat.div_le_lower_bound; lia.
Qed.

Lemma val_n_pos n : Z.of_nat n < 2 ^ 48 -> (1 <= n)%nat -> (1 <= val_n n)%nat.
Proof.
  intros Hn H1. unfold val_n. rewrite train_n_floor by assumption.
  assert (17 * n / 20 < n)%nat; [|lia].
  apply Nat.Div0.div_lt_upper_bound. lia.
Qed.

Lemma split_lengths_sum n :
  Z.of_nat n < 2 ^ 48 -> list_sum [train_n n; val_n n] = n.
Proof.
  intros Hn. pose proof (train_n_le n Hn). unfold val_n. simpl. lia.
Qed.

(** ** Batches *)

Lemma batch_sampler_concat b batch l :
  concat (batch_sampler b batch l) = batch ++ l.
Proof.
  revert batch. induction l as [|idx rest IH]; intros batch; cbn [batch_sampler].
  - destruct batch; cbn; [reflexivity|]. now rewrite !app_nil_r.
  - destruct (Nat.eqb_spec (List.length (batch ++ [idx])) b).
    + cbn [concat]. rewrite IH. cbn. now rewrite <- app_assoc.
    + rewrite IH. now rewrite <- app_assoc.
Qed.

Lemma batch_sampler_well_batched b batch l :
  (List.length batch < b)%nat -> well_batched b (batch_sampler b batch l).
Proof.
  revert batch. induction l as [|idx rest IH]; intros batch Hlt; cbn [batch_sampler].
  - destruct batch; cbn in *; [exact I | lia].
  - destruct (Nat.eqb_spec (List.length (batch ++ [idx])) b) as [Heq|Hne].
    + assert (Hrest : well_batched b (batch_sampler b [] rest))
        by (apply IH; cbn; lia).
      cbn [well_batched].
      destruct (batch_sampler b [] rest); [lia | split; assumption].
    + apply IH. rewrite length_app in *. cbn in *. lia.
Qed.

Lemma well_batched_sizes b bs :
  well_batched b bs -> Forall (fun x => (1 <= List.length x <= b)%nat) bs.
Proof.
  induction bs as [|x rest IH]; intros H; [constructor|].
  destruct rest as [|y rest'].
  - constructor; [exact H | constructor].
  - destruct H as [Hx Hrest]. constructor; [|apply IH; exact Hrest].
    specialize (IH Hrest). inversion IH; subst. lia.
Qed.

Lemma well_batched_full b bs i :
  well_batched b bs -> (S i < List.length bs)%nat ->
  List.length (nth i bs []) = b.
Proof.
  revert i. induction bs as [|x rest IH]; intros i H Hi; [cbn in Hi; lia|].
  destruct rest as [|y rest']; [cbn in Hi; lia|].
  destruct H as [Hx Hrest]. destruct i as [|i]; [exact Hx|].
  cbn [nth]. apply IH; [exact Hrest | cbn in *; lia].
Qed.

Lemma sum_lengths_concat (bs : list (list nat)) :
  list_sum (map (@List.length nat) bs) = List.length (concat bs).
Proof.
  induction bs as [|x rest IH]; [reflexivity|].
  cbn [map concat]. rewrite length_app.
  unfold list_sum in *. cbn [fold_right]. now rewrite IH.
Qed.

Example scenario_B :
  map (@List.length nat) (batch_sampler 25 [] (seq 0 103)) = [25; 25; 25; 25; 3]%nat.
Proof. vm_compute. reflexivity. Qed.


Lemma map_nth_seq (l : list nat) :
  map (fun j => nth j l 0%nat) (seq 0 (List.length l)) = l.
Proof.
  induction l as [|x l IH]; [reflexivity|].
  cbn [List.length seq map nth]. f_equal.
  rewrite <- seq_shift, map_map. exact IH.
Qed.

Lemma shuffled_subset T (l : list nat) g :
  randperm_ok T ->
  Permutation (map (fun j => nth j l 0%nat) (fst (randperm T (List.length l) g))) l.
Proof.
  intros Hp. rewrite <- (map_nth_seq l) at 2.
  apply Permutation_map, Hp.
Qed.

(** ** Running the monad *)


Section Runs.

Variable T : backend.
Variable D : tensor_dataset.

Lemma bind_return A B (m : M T A) (k : A -> M T B) w a w' :
  m w = (Return a, w') -> bind m k w = k a w'.
Proof. intros H. unfold bind. now rewrite H. Qed.

Lemma bind_raise A B (m : M T A) (k : A -> M T B) w e w' :
  m w = (Raise e, w') -> bind m k w = (Raise e, w').
Proof. intros H. unfold bind. now rewrite H. Qed.

Lemma iterate_run l w :
  iterate l w =
  (Return (batch_sampler (Z.to_nat (bsize l)) []
             (map (fun j => nth j (subset l) 0%nat)
                (fst (randperm T (List.length (subset l)) (gen w))))),
   mkWorld (snd (randperm T (List.length (subset l)) (gen w)))
     (handle w) (lists w) (trace w)).
Proof.
  unfold iterate, bind, draw, ret.
  destruct (randperm T (List.length (subset l)) (gen w)); reflexivity.
Qed.

Lemma count_correct_bounds top_class batch :
  0 <= count_correct D top_class batch <= Z.of_nat (List.length batch).
Proof.
  unfold count_correct. split; [lia|].
  apply Nat2Z.inj_le.
  etransitivity; [apply filter_length_le|].
  rewrite length_combine. lia.
Qed.

Lemma train_pass_run lr batches : forall m l c w,
  exists m' l' c' g',
    for_each batches (train_batch T D lr) (m, l, c) w =
      (Return (m', l', c'), mkWorld g' (handle w) (lists w) (trace w)) /\
    c <= c' <= c + Z.of_nat (List.length (concat batches)) /\
    (loss_nonneg T -> (0 <= l)%Q -> (0 <= l')%Q).
Proof.
  induction batches as [|b rest IH]; intros m l c w.
  - exists m, l, c, (gen w). destruct w; cbn. repeat split; try lia. tauto.
  - cbn [for_each]. unfold bind at 1. unfold train_batch at 1.
    unfold bind, draw, ret.
    destruct (train_step T lr m b (gen w)) as [[[m1 loss] tc] g1] eqn:Hstep.
    destruct (IH m1 (l + loss)%Q (c + count_correct D tc b)
                (mkWorld g1 (handle w) (lists w) (trace w)))
      as (m' & l' & c' & g' & Hrun & Hc & Hl).
    exists m', l', c', g'. cbn in Hrun. rewrite Hrun.
    pose proof (count_correct_bounds tc b).
    cbn [concat]. rewrite length_app.
    repeat split; try lia.
    intros Hn H0. apply Hl; [exact Hn|].
    destruct Hn as [Hn _]. specialize (Hn lr m b (gen w)).
    rewrite Hstep in Hn. cbn in Hn.
    rewrite <- (Qplus_0_r 0). apply Qplus_le_compat; assumption.
Qed.

Lemma val_pass_run model batches : forall l c w,
  exists l' c',
    for_each batches (val_batch T D model) (l, c) w = (Return (l', c'), w) /\
    c <= c' <= c + Z.of_nat (List.length (concat batches)) /\
    (loss_nonneg T -> (0 <= l)%Q -> (0 <= l')%Q).
Proof.
  induction batches as [|b rest IH]; intros l c w.
  - exists l, c. cbn. repeat split; try lia. tauto.
  - cbn [for_each]. unfold bind at 1. unfold val_batch at 1.
    destruct (eval_step T model b) as [loss tc] eqn:Hstep. unfold ret at 1.
    destruct (IH (l + loss)%Q (c + count_correct D tc b) w)
      as (l' & c' & Hrun & Hc & Hl).
    exists l', c'. rewrite Hrun.
    pose proof (count_correct_bounds tc b).
    cbn [concat]. rewrite length_app.
    repeat split; try lia.
    intros Hn H0. apply Hl; [exact Hn|].
    destruct Hn as [_ Hn]. specialize (Hn model b).
    rewrite Hstep in Hn. cbn in Hn.
    rewrite <- (Qplus_0_r 0). apply Qplus_le_compat; assumption.
Qed.

End Runs.


Lemma loader_len_pos l : valid_loader l -> 0 < loader_len l.
Proof.
  intros [Hne Hb]. unfold loader_len.
  assert (1 <= Z.of_nat (List.length (subset l))).
  { destruct (subset l); [congruence | cbn [List.length]; lia]. }
  apply Z.div_str_pos. lia.
Qed.

Lemma loader_subset_pos l :
  valid_loader l -> 0 < Z.of_nat (List.length (subset l)).
Proof.
  intros [Hne _]. destruct (subset l); [congruence | cbn [List.length]; lia].
Qed.

Lemma quotient_nonneg (x : Q) (n : Z) :
  (0 <= x)%Q -> 0 < n -> nonneg (x / inject_Z n).
Proof.
  intros Hx Hn. unfold nonneg.
  apply Qle_shift_div_l.
  - change 0%Q with (inject_Z 0). rewrite <- Zlt_Qlt. exact Hn.
  - rewrite Qmult_0_l. exact Hx.
Qed.

Lemma quotient_in_unit (c n : Z) :
  0 <= c <= n -> 0 < n -> in_unit (inject_Z c / inject_Z n).
Proof.
  intros [H0 H1] Hn.
  assert (Hq : (0 < inject_Z n)%Q)
    by (change 0%Q with (inject_Z 0); rewrite <- Zlt_Qlt; exact Hn).
  split.
  - apply Qle_shift_div_l; [exact Hq|]. rewrite Qmult_0_l.
    change 0%Q with (inject_Z 0). rewrite <- Zle_Qle. exact H0.
  - apply Qle_shift_div_r; [exact Hq|]. rewrite Qmult_1_l.
    rewrite <- Zle_Qle. exact H1.
Qed.

Section Epochs.

Variable T : backend.
Variable D : tensor_dataset.

Lemma py_div_run (x : Q) (n : Z) (w : world T) :
  n <> 0 -> py_div x n w = (Return (x / inject_Z n)%Q, w).
Proof.
  intros Hn. unfold py_div. destruct (Z.eqb_spec n 0); [contradiction | reflexivity].
Qed.

Lemma finalize_run tl vl a b c d (w : world T) :
  valid_loader tl -> valid_loader vl ->
  finalize T tl vl a b c d w =
  (Return tt,
   mkWorld (gen w) (handle w)
     (push (lists w)
        (a / inject_Z (loader_len tl))
        (inject_Z b / inject_Z (Z.of_nat (List.length (subset tl))))
        (c / inject_Z (loader_len vl))
        (inject_Z d / inject_Z (Z.of_nat (List.length (subset vl)))))
     (trace w)).
Proof.
  intros Ht Hv.
  pose proof (loader_len_pos tl Ht). pose proof (loader_len_pos vl Hv).
  pose proof (loader_subset_pos tl Ht). pose proof (loader_subset_pos vl Hv).
  unfold finalize, py_div, bind, append_train_loss, append_train_accuracy,
    append_val_loss, append_val_accuracy, get_lists, set_lists, ret, raise.
  destruct (Z.eqb_spec (loader_len tl) 0); [lia|].
  destruct (Z.eqb_spec (Z.of_nat (List.length (subset tl))) 0); [lia|].
  destruct (Z.eqb_spec (loader_len vl) 0); [lia|].
  destruct (Z.eqb_spec (Z.of_nat (List.length (subset vl))) 0); [lia|].
  reflexivity.
Qed.

Lemma pass_length (l : loader) g :
  randperm_ok T ->
  List.length
    (concat (batch_sampler (Z.to_nat (bsize l)) []
               (map (fun j => nth j (subset l) 0%nat)
                  (fst (randperm T (List.length (subset l)) g))))) =
  List.length (subset l).
Proof.
  intros Hp. rewrite batch_sampler_concat. cbn [app].
  apply Permutation_length, shuffled_subset, Hp.
Qed.

Lemma run_epoch_run lr tl vl m (w : world T) :
  valid_loader tl -> valid_loader vl ->
  exists m' g' a b c d,
    run_epoch T D lr tl vl m w =
      (Return m', mkWorld g' (handle w) (push (lists w) a b c d) (trace w)) /\
    (randperm_ok T -> in_unit b /\ in_unit d) /\
    (loss_nonneg T -> nonneg a /\ nonneg c).
Proof.
  intros Ht Hv. unfold run_epoch.
  rewrite (bind_return _ _ _ _ _ _ _ _ (iterate_run T tl w)).
  set (w1 := mkWorld _ _ _ _).
  set (tb := batch_sampler _ _ _).
  destruct (train_pass_run T D lr tb m 0%Q 0 w1)
    as (m' & tloss & tcorr & g2 & Hrun & Hc & Hl).
  rewrite (bind_return _ _ _ _ _ _ _ _ Hrun).
  set (w2 := mkWorld g2 _ _ _).
  rewrite (bind_return _ _ _ _ _ _ _ _ (iterate_run T vl w2)).
  set (w3 := mkWorld _ _ _ _).
  set (vb := batch_sampler _ _ _).
  destruct (val_pass_run T D m' vb 0%Q 0 w3) as (vloss & vcorr & Hvrun & Hvc & Hvl).
  rewrite (bind_return _ _ _ _ _ _ _ _ Hvrun).
  rewrite (bind_return _ _ _ _ _ _ _ _ (finalize_run _ _ _ _ _ _ _ Ht Hv)).
  eexists m', _, _, _, _, _. split; [reflexivity|].
  pose proof (loader_len_pos tl Ht). pose proof (loader_len_pos vl Hv).
  pose proof (loader_subset_pos tl Ht). pose proof (loader_subset_pos vl Hv).
  split.
  - intros Hp. split; apply quotient_in_unit; try assumption.
    + unfold tb in Hc. rewrite pass_length in Hc by assumption. lia.
    + unfold vb in Hvc. rewrite pass_length in Hvc by assumption. lia.
  - intros Hn. split; apply quotient_nonneg; try assumption.
    + apply Hl; [assumption | apply Qle_refl].
    + apply Hvl; [assumption | apply Qle_refl].
Qed.

End Epochs.


Ltac splits := repeat match goal with |- _ /\ _ => split end.

Section Loop.

Variable T : backend.
Variable D : tensor_dataset.

Lemma epoch_run lr tl vl e m (w : world T) :
  valid_loader tl -> valid_loader vl ->
  exists m' g' a b c d,
    epoch T D lr tl vl e m w =
      match handle w with
      | None =>
          (Return m', mkWorld g' None (push (lists w) a b c d) (trace w))
      | Some tr =>
          let tr' := report T tr d e in
          (if should_prune T tr' then Raise TrialPruned else Return m',
           mkWorld g' (Some tr') (push (lists w) a b c d)
             (trace w ++ [TrialReport d e; TrialShouldPrune (should_prune T tr')]))
      end /\
    (randperm_ok T -> in_unit b /\ in_unit d) /\
    (loss_nonneg T -> nonneg a /\ nonneg c).
Proof.
  intros Ht Hv.
  destruct (run_epoch_run T D lr tl vl m w Ht Hv)
    as (m' & g' & a & b & c & d & Hrun & Hacc & Hloss).
  exists m', g', a, b, c, d. split; [|split; assumption].
  unfold epoch. rewrite (bind_return _ _ _ _ _ _ _ _ Hrun).
  unfold prune_check, bind, get_handle, get_lists, set_handle, emit, ret, raise.
  cbn [handle].
  destruct (handle w) as [tr|]; [|reflexivity].
  cbn [handle lists gen trace push val_accuracies].
  rewrite last_last.
  destruct (should_prune T (report T tr d e)); cbn; rewrite <- app_assoc; reflexivity.
Qed.

Lemma lengths_push h n a b c d : lengths h n -> lengths (push h a b c d) (S n).
Proof.
  intros (H1 & H2 & H3 & H4). unfold lengths, push. cbn.
  rewrite !length_app. cbn. lia.
Qed.

Lemma ranges_push h a b c d :
  ranges h -> nonneg a -> in_unit b -> nonneg c -> in_unit d ->
  ranges (push h a b c d).
Proof.
  intros (H1 & H2 & H3 & H4) Ha Hb Hc Hd. unfold ranges, push. cbn.
  splits; apply Forall_app; split; try assumption;
    constructor; solve [assumption | constructor].
Qed.


Lemma loop_run lr tl vl :
  valid_loader tl -> valid_loader vl ->
  forall n s m (w : world T),
    lengths (lists w) s ->
    loop_post T s n w
      (fst (for_each (seq s n) (epoch T D lr tl vl) m w))
      (snd (for_each (seq s n) (epoch T D lr tl vl) m w)) /\
    (randperm_ok T -> loss_nonneg T -> ranges (lists w) ->
     ranges (lists (snd (for_each (seq s n) (epoch T D lr tl vl) m w)))).
Proof.
  intros Ht Hv. induction n as [|n IH]; intros s m w Hlen.
  - cbn. split; [|tauto]. exists []. rewrite app_nil_r, Nat.add_0_r. auto.
  - cbn [seq for_each].
    destruct (epoch_run lr tl vl s m w Ht Hv)
      as (m' & g' & a & b & c & d & Hrun & Hacc & Hloss).
    assert (Hr : randperm_ok T -> loss_nonneg T -> ranges (lists w) ->
                 ranges (push (lists w) a b c d)).
    { intros Hp Hn Hw. destruct (Hacc Hp), (Hloss Hn).
      apply ranges_push; assumption. }
    destruct (handle w) as [tr|] eqn:Hh.
    + cbn zeta in Hrun.
      destruct (should_prune T (report T tr d s)) eqn:Hsp.
      * rewrite (bind_raise _ _ _ _ _ _ _ _ Hrun). cbn [fst snd lists].
        split; [|exact Hr]. split; [reflexivity|].
        exists [], d, s, (report T tr d s). cbn [app handle trace lists].
        splits; try reflexivity; try lia; try assumption; try congruence.
        apply lengths_push; assumption.
      * rewrite (bind_return _ _ _ _ _ _ _ _ Hrun).
        set (w1 := mkWorld _ _ _ _).
        destruct (IH (S s) m' w1) as [Hpost Hrange].
        { apply lengths_push; assumption. }
        split; [|intros Hp Hn Hw; apply Hrange; auto].
        destruct (for_each (seq (S s) n) (epoch T D lr tl vl) m' w1) as [[r|e] w'];
          cbn [fst snd loop_post] in *.
        -- destruct Hpost as (added & Htr & Hq & Hl).
           exists ([TrialReport d s; TrialShouldPrune false] ++ added).
           rewrite Htr. cbn [trace w1]. rewrite <- app_assoc.
           replace (s + S n)%nat with (S s + n)%nat by lia.
           splits; solve [reflexivity | assumption].
        -- destruct Hpost
             as (-> & added & v & k & tr' & Htr & Hq & Hk & Hl & Hh' & Hs' & _).
           split; [reflexivity|].
           exists ([TrialReport d s; TrialShouldPrune false] ++ added), v, k, tr'.
           rewrite Htr. cbn [trace w1]. rewrite <- !app_assoc.
           splits; solve [reflexivity | assumption | lia | congruence].
    + rewrite (bind_return _ _ _ _ _ _ _ _ Hrun).
      set (w1 := mkWorld _ _ _ _).
      destruct (IH (S s) m' w1) as [Hpost Hrange].
      { apply lengths_push; assumption. }
      split; [|intros Hp Hn Hw; apply Hrange; auto].
      destruct (for_each (seq (S s) n) (epoch T D lr tl vl) m' w1) as [[r|e] w'];
        cbn [fst snd loop_post] in *.
      * destruct Hpost as (added & Htr & Hq & Hl).
        exists added. rewrite Htr. cbn [trace w1].
        replace (s + S n)%nat with (S s + n)%nat by lia.
        splits; solve [reflexivity | assumption].
      * exfalso.
        destruct Hpost as (_ & _ & _ & _ & _ & _ & _ & _ & _ & _ & _ & Hno).
        apply Hno. reflexivity.
Qed.

End Loop.

Section Prepare.

Variable T : backend.
Variable D : tensor_dataset.


Lemma setup_events_quiet a : forallb quiet (setup_events T a) = true.
Proof. unfold setup_events. destruct (use_azure a); reflexivity. Qed.

Lemma azure_setup_run a (w : world T) :
  azure_setup T a w =
  (Return tt, mkWorld (gen w) (handle w) (lists w) (trace w ++ setup_events T a)).
Proof.
  unfold azure_setup, setup_events, when.
  destruct (use_azure a); unfold bind, emit, ret; cbn.
  - rewrite <- !app_assoc. reflexivity.
  - rewrite app_nil_r. destruct w; reflexivity.
Qed.

Lemma split_data_frame (w : world T) :
  exists r g, split_data T D w = (r, mkWorld g (handle w) (lists w) (trace w)) /\
              forall e, r = Raise e -> e = ValueError.
Proof.
  unfold split_data, random_split.
  destruct (list_sum [train_n (len D); val_n (len D)] =? len D)%nat.
  - unfold bind, draw, ret, raise.
    destruct (randperm T (len D) (gen w)) as [idx g]. cbn [slices].
    eexists _, g. split; [reflexivity | discriminate].
  - unfold bind, raise. eexists _, (gen w).
    split; [destruct w; reflexivity | congruence].
Qed.

Lemma DataLoader_run data b (w : world T) :
  (exists l, DataLoader data b w = (Return l, w) /\ valid_loader l /\
             subset l = data /\ bsize l = b) \/
  DataLoader data b w = (Raise ValueError, w).
Proof.
  unfold DataLoader.
  destruct (Nat.eqb_spec (List.length data) 0); [right; reflexivity|].
  destruct (Z.leb_spec b 0); [right; reflexivity|].
  left. eexists. split; [reflexivity|]. unfold valid_loader. cbn.
  splits; try reflexivity; try lia.
  destruct data; [cbn in *; lia | discriminate].
Qed.

Lemma first_batch_frame l (w : world T) :
  exists r g, first_batch T l w = (r, mkWorld g (handle w) (lists w) (trace w)) /\
              forall e, r = Raise e -> before_loop e = true.
Proof.
  unfold first_batch. rewrite (bind_return _ _ _ _ _ _ _ _ (iterate_run T l w)).
  destruct (iter_next T); [destruct (batch_sampler _ _ _)|];
    unfold raise, ret; eexists _, _;
    (split; [reflexivity | intros e [= <-] || discriminate; reflexivity]).
Qed.

Lemma Adam_run lr (w : world T) :
  Adam lr w = (if Qle_bool 0 lr then Return tt else Raise ValueError, w).
Proof. unfold Adam. destruct (Qle_bool 0 lr); reflexivity. Qed.

(** [prepare] either hands over two usable loaders and a network, or
    raises one of the errors of the lines before the loop; in both cases it
    has only touched the generator and sent the set-up events. *)
Lemma prepare_run a (w : world T) :
  exists r g,
    prepare T D a w =
      (r, mkWorld g (handle w) (lists w) (trace w ++ setup_events T a)) /\
    match r with
    | Return (tl, vl, _) =>
        valid_loader tl /\ valid_loader vl /\
        bsize tl = batch_size a /\ bsize vl = batch_size a
    | Raise e => before_loop e = true
    end.
Proof.
  unfold prepare, splitter, reseed.
  unfold bind at 1. unfold bind at 1. unfold set_gen at 1.
  unfold bind at 1. rewrite azure_setup_run.
  set (w1 := mkWorld _ _ _ _).
  destruct (split_data_frame w1) as (r & g1 & Hsplit & Hnp). rewrite Hsplit.
  cbn [handle lists trace w1].
  destruct r as [[train_data val_data]|e].
  2:{ eexists _, g1. split; [reflexivity|].
      rewrite (Hnp e eq_refl). reflexivity. }
  set (w2 := mkWorld g1 _ _ _).
  destruct (DataLoader_run train_data (batch_size a) w2)
    as [(tl & Htl & Hvt & _ & Hbt)|Htl].
  2:{ rewrite (bind_raise _ _ _ _ _ _ _ _ Htl). eexists _, g1.
      split; reflexivity. }
  rewrite (bind_return _ _ _ _ _ _ _ _ Htl).
  destruct (DataLoader_run val_data (batch_size a) w2)
    as [(vl & Hvl & Hvv & _ & Hbv)|Hvl].
  2:{ rewrite (bind_raise _ _ _ _ _ _ _ _ Hvl). eexists _, g1.
      split; reflexivity. }
  rewrite (bind_return _ _ _ _ _ _ _ _ Hvl).
  unfold bind at 1.
  destruct (first_batch_frame tl w2) as (r & g2 & Hfb & Hr). rewrite Hfb.
  destruct r as [b|e].
  2:{ eexists _, g2. split; [reflexivity | apply Hr; reflexivity]. }
  unfold bind at 1. unfold draw at 1. cbn [gen handle lists trace w2].
  destruct (Classifier T (dropout_p a) g2) as [model g3].
  unfold bind at 1. rewrite Adam_run.
  destruct (Qle_bool 0 (learning_rate a)).
  - eexists _, g3. split; [reflexivity | cbn; auto].
  - eexists _, g3. split; reflexivity.
Qed.

End Prepare.

Section Call.

Variable T : backend.
Variable D : tensor_dataset.


Lemma save_results_run m s f model d az (w : world T) :
  save_results T m s f model d az w =
  (if dirs_ready T m s f az then Return tt else Raise FileNotFoundError,
   mkWorld (gen w) (handle w) (lists w)
     (trace w ++ save_done T m s f model d az)).
Proof.
  unfold save_results, save_done, dirs_ready, save_events, when, write.
  destruct az; cbv [orb].
  - cbv [bind emit ret trace gen handle lists].
    rewrite <- ?app_assoc. reflexivity.
  - destruct (isdir T (Dirname (Joinpath ProjectDir m)));
      [destruct (isdir T (Joinpath ProjectDir s));
       [destruct (isdir T (Joinpath ProjectDir f))|]|];
      cbv [bind emit ret raise trace gen handle lists andb];
      rewrite <- ?app_assoc, ?app_nil_r; try reflexivity;
      destruct w; reflexivity.
Qed.

Lemma save_done_ready m s f model d az :
  dirs_ready T m s f az = true ->
  save_done T m s f model d az = save_events T m s f model d az.
Proof.
  unfold dirs_ready, save_done, save_events. destruct az; [reflexivity|].
  cbv [orb]. intros H. apply andb_true_iff in H as [H H3].
  apply andb_true_iff in H as [H1 H2]. rewrite H1, H2, H3. reflexivity.
Qed.

(** Without its directories [save_results] leaves a proper part of the four
    files: at most the weights and the statistics, in that order. *)
Lemma save_done_short m s f model d az :
  dirs_ready T m s f az = false ->
  az = false /\
  (save_done T m s f model d az = [] \/
   save_done T m s f model d az = [TorchSave (Joinpath ProjectDir m) model] \/
   save_done T m s f model d az =
     [TorchSave (Joinpath ProjectDir m) model;
      PickleDump (Joinpath (Joinpath ProjectDir s) "train_val_dict.pickle") d]).
Proof.
  unfold dirs_ready, save_done. destruct az; [discriminate|]. cbv [orb].
  intros H. split; [reflexivity|].
  destruct (isdir T (Dirname (Joinpath ProjectDir m))); [|auto].
  destruct (isdir T (Joinpath ProjectDir s)); [|auto].
  destruct (isdir T (Joinpath ProjectDir f)); [discriminate | auto].
Qed.

Lemma save_events_artifacts m s f model d az :
  exists p1 p2 p3 p4,
    filter persists (save_events T m s f model d az) =
    [TorchSave p1 model; PickleDump p2 d; Savefig p3; Savefig p4].
Proof.
  unfold save_events. destruct az; cbn; eexists _, _, _, _; reflexivity.
Qed.

Lemma save_events_no_signal m s f model d az :
  forallb (fun ev => negb (signal ev)) (save_events T m s f model d az) = true.
Proof. unfold save_events. destruct az; reflexivity. Qed.

Lemma save_done_no_signal m s f model d az :
  forallb (fun ev => negb (signal ev)) (save_done T m s f model d az) = true.
Proof.
  unfold save_done, save_events. destruct az; [reflexivity|].
  destruct (isdir T (Dirname (Joinpath ProjectDir m))); [|reflexivity].
  destruct (isdir T (Joinpath ProjectDir s)); [|reflexivity].
  destruct (isdir T (Joinpath ProjectDir f)); reflexivity.
Qed.



Lemma train_model_run a (w : world T) :
  call_post T D a w (fst (train_model T D a w)) (snd (train_model T D a w)) /\
  (randperm_ok T -> loss_nonneg T -> ranges (lists w) ->
   ranges (lists (snd (train_model T D a w)))).
Proof.
  destruct (train_model T D a w) as [r w'] eqn:Hrun. cbn [fst snd].
  revert Hrun. unfold train_model.
  destruct (prepare_run T D a w) as (rp & g & Hprep & Hr).
  destruct rp as [[[tl vl] model]|e].
  2:{ rewrite (bind_raise _ _ _ _ _ _ _ _ Hprep). intros Hrun.
      injection Hrun as <- <-. cbn [lists]. split; [|tauto].
      unfold call_post. rewrite Hprep. cbn [fst lists handle trace].
      destruct e; try discriminate Hr; auto. }
  destruct Hr as (Ht & Hv & _).
  rewrite (bind_return _ _ _ _ _ _ _ _ Hprep).
  unfold bind at 1. unfold training_loop. unfold bind at 1.
  unfold set_lists at 1. cbn [gen handle lists trace].
  set (w1 := mkWorld g (handle w) no_history _).
  destruct (loop_run T D (learning_rate a) tl vl Ht Hv
              (Z.to_nat (epochs a)) 0%nat model w1) as [Hpost Hrange].
  { unfold lengths. cbn. auto. }
  assert (Hnil : ranges (lists w1)).
  { unfold ranges. cbn. auto. }
  destruct (for_each (seq 0 (Z.to_nat (epochs a)))
              (epoch T D (learning_rate a) tl vl) model w1)
    as [[model'|e] w2] eqn:Hloop; cbn [fst snd loop_post] in Hpost, Hrange.
  - unfold bind at 1. unfold get_lists at 1.
    unfold bind at 1. unfold when at 1.
    destruct Hpost as (added & Htr & Hq & Hl).
    set (m := trained_model_filepath a).
    set (s := training_statistics_filepath a).
    set (f := training_figures_filepath a).
    assert (Hsaved :
      (if save_training_results a
       then save_results T m s f model' (lists w2) (use_azure a)
       else ret tt) w2 =
      (if save_training_results a && negb (dirs_ready T m s f (use_azure a))
       then Raise FileNotFoundError else Return tt,
       mkWorld (gen w2) (handle w2) (lists w2)
         (trace w2 ++ if save_training_results a
                      then save_done T m s f model' (lists w2) (use_azure a)
                      else []))).
    { destruct (save_training_results a).
      - rewrite save_results_run.
        destruct (dirs_ready T m s f (use_azure a)); reflexivity.
      - unfold ret. rewrite app_nil_r. destruct w2; reflexivity. }
    rewrite Hsaved. clear Hsaved.
    destruct (save_training_results a && negb (dirs_ready T m s f (use_azure a)))
      eqn:Hfail.
    + apply andb_true_iff in Hfail as [Hsave Hready].
      apply negb_true_iff in Hready. rewrite Hsave.
      intros Hrun. injection Hrun as <- <-. cbn [lists].
      split; [|intros; apply Hrange; assumption].
      unfold call_post. cbn [lists trace handle].
      splits; [exact Hsave | exact Hready | exact Hl |].
      exists added, model'. rewrite Htr. cbn [trace w1].
      rewrite <- !app_assoc. split; [reflexivity | exact Hq].
    + assert (Hready : save_training_results a = true ->
                       dirs_ready T m s f (use_azure a) = true).
      { intros Hsave. rewrite Hsave in Hfail.
        destruct (dirs_ready T m s f (use_azure a)); [reflexivity | discriminate]. }
      unfold get_handle at 1. unfold bind at 1. cbn [handle].
      assert (Hclose :
        when (use_azure a && negb (is_some (handle w2))) (emit RunComplete)
          (mkWorld (gen w2) (handle w2) (lists w2)
             (trace w2 ++ if save_training_results a
                        then save_done T m s f model' (lists w2) (use_azure a)
                        else [])) =
        (Return tt, mkWorld (gen w2) (handle w2) (lists w2)
           (trace w ++ setup_events T a ++ added ++
            closing_events T a model' (lists w2) (handle w2)))).
      { unfold closing_events, when, emit, ret. rewrite Htr. cbn [trace w1].
        fold m s f.
        destruct (save_training_results a);
          [rewrite (save_done_ready _ _ _ _ _ _ (Hready eq_refl))|];
          destruct (use_azure a && negb (is_some (handle w2)));
          cbn [gen handle lists trace]; rewrite <- ?app_assoc, ?app_nil_r;
          reflexivity. }
      rewrite (bind_return _ _ _ _ _ _ _ _ Hclose). unfold ret.
      intros Hrun. injection Hrun as <- <-. cbn [lists].
      split; [|intros; apply Hrange; assumption].
      unfold call_post. cbn [lists trace handle].
      splits; [reflexivity | exact Hl |].
      exists added, model'. splits; [reflexivity | exact Hq | exact Hready].
  - intros Hrun. injection Hrun as <- <-.
    split; [|intros; apply Hrange; assumption].
    destruct Hpost
      as (-> & added & v & k & tr' & Htr & Hq & Hk & Hl & Hh & Hs & Hno).
    unfold call_post. exists added, v, k, tr'.
    rewrite Htr. cbn [trace w1]. rewrite <- !app_assoc.
    splits; solve [reflexivity | assumption | lia].
Qed.

End Call.

Section Split.

Variable T : backend.
Variable D : tensor_dataset.

Lemma split_data_run (w : world T) :
  Z.of_nat (len D) < 2 ^ 48 ->
  split_data T D w =
  (Return (firstn (train_n (len D)) (fst (randperm T (len D) (gen w))),
           firstn (val_n (len D))
             (skipn (train_n (len D)) (fst (randperm T (len D) (gen w))))),
   mkWorld (snd (randperm T (len D) (gen w))) (handle w) (lists w) (trace w)).
Proof.
  intros Hn. unfold split_data, random_split.
  rewrite (split_lengths_sum _ Hn), Nat.eqb_refl.
  unfold bind, draw, ret.
  destruct (randperm T (len D) (gen w)) as [idx g]. reflexivity.
Qed.

Lemma NoDup_app_disjoint (l1 l2 : list nat) x :
  NoDup (l1 ++ l2) -> In x l1 -> ~ In x l2.
Proof.
  induction l1 as [|y l1 IH]; intros Hnd Hin; [contradiction|].
  cbn in Hnd. inversion Hnd as [|? ? Hy Hnd']; subst.
  destruct Hin as [->|Hin]; [|apply IH; assumption].
  intros Hx. apply Hy. apply in_or_app. now right.
Qed.

Lemma split_slices (idx : list nat) n :
  Z.of_nat n < 2 ^ 48 -> Permutation idx (seq 0 n) ->
  let tr := firstn (train_n n) idx in
  let va := firstn (val_n n) (skipn (train_n n) idx) in
  List.length tr = train_n n /\ List.length va = val_n n /\
  tr ++ va = idx.
Proof.
  intros Hn Hp tr va.
  assert (Hlen : List.length idx = n)
    by (rewrite (Permutation_length Hp); apply length_seq).
  pose proof (train_n_le n Hn) as Hle.
  assert (Hva : va = skipn (train_n n) idx).
  { unfold va. apply firstn_all2. rewrite length_skipn. unfold val_n. lia. }
  splits.
  - unfold tr. rewrite length_firstn. lia.
  - rewrite Hva, length_skipn. unfold val_n. lia.
  - rewrite Hva. apply firstn_skipn.
Qed.

Lemma batch_sampler_nonempty b x l : batch_sampler b [] (x :: l) <> [].
Proof.
  intros H. pose proof (batch_sampler_concat b [] (x :: l)) as Hc.
  rewrite H in Hc. discriminate.
Qed.

Lemma prepare_ok a (w : world T) :
  randperm_ok T -> iter_next T = true ->
  (2 <= len D)%nat -> Z.of_nat (len D) < 2 ^ 48 ->
  1 <= batch_size a -> (0 <= learning_rate a)%Q ->
  exists tl vl model w', prepare T D a w = (Return (tl, vl, model), w').
Proof.
  intros Hp Hnext H2 Hn Hb Hlr. apply Qle_bool_iff in Hlr.
  unfold prepare, splitter, reseed.
  unfold bind at 1. unfold bind at 1. unfold set_gen at 1.
  unfold bind at 1. rewrite azure_setup_run.
  set (w1 := mkWorld _ _ _ _).
  rewrite (split_data_run w1 Hn).
  set (idx := fst (randperm T (len D) (gen w1))).
  destruct (split_slices idx (len D) Hn (Hp _ _)) as (Htr & Hva & _).
  set (tr := firstn _ idx) in *. set (va := firstn _ (skipn _ idx)) in *.
  set (w2 := mkWorld _ _ _ _).
  pose proof (train_n_pos _ Hn H2). pose proof (val_n_pos _ Hn ltac:(lia)).
  destruct (DataLoader_run T tr (batch_size a) w2) as [(tl & Htl & _ & Hst & _)|Htl].
  2:{ exfalso. revert Htl. unfold DataLoader.
      destruct (Nat.eqb_spec (List.length tr) 0); [lia|].
      destruct (Z.leb_spec (batch_size a) 0); [lia | discriminate]. }
  rewrite (bind_return _ _ _ _ _ _ _ _ Htl).
  destruct (DataLoader_run T va (batch_size a) w2) as [(vl & Hvl & _)|Hvl].
  2:{ exfalso. revert Hvl. unfold DataLoader.
      destruct (Nat.eqb_spec (List.length va) 0); [lia|].
      destruct (Z.leb_spec (batch_size a) 0); [lia | discriminate]. }
  rewrite (bind_return _ _ _ _ _ _ _ _ Hvl).
  unfold bind at 1. unfold first_batch.
  rewrite (bind_return _ _ _ _ _ _ _ _ (iterate_run T tl w2)).
  rewrite Hnext.
  set (sampler := map _ _).
  assert (Hs : List.length sampler = List.length tr).
  { unfold sampler. rewrite Hst. apply Permutation_length, shuffled_subset, Hp. }
  destruct sampler as [|x rest]; [cbn in Hs; lia|].
  pose proof (batch_sampler_nonempty (Z.to_nat (bsize tl)) x rest) as Hne.
  destruct (batch_sampler _ _ _) as [|b bs]; [contradiction|].
  unfold ret at 1. unfold bind at 1. unfold draw at 1.
  destruct (Classifier T (dropout_p a) _) as [model g3].
  unfold bind at 1. rewrite Adam_run, Hlr. unfold ret.
  eexists _, _, _, _. reflexivity.
Qed.

End Split.

(** ** Traces *)


Lemma quiet_no_signal {net} (l : list (event net)) :
  forallb quiet l = true -> no_signal l.
Proof.
  unfold no_signal. rewrite !forallb_forall. intros H ev Hin.
  specialize (H ev Hin). unfold quiet in H.
  now apply andb_true_iff in H.
Qed.

Lemma quiet_no_artifact {net} (l : list (event net)) :
  forallb quiet l = true -> no_artifact l.
Proof.
  unfold no_artifact. rewrite !forallb_forall. intros H ev Hin.
  specialize (H ev Hin). unfold quiet in H.
  now apply andb_true_iff in H.
Qed.

Lemma no_artifact_filter {net} (l : list (event net)) :
  no_artifact l -> filter persists l = [].
Proof.
  unfold no_artifact. induction l as [|ev l IH]; [reflexivity|].
  cbn. intros H. apply andb_true_iff in H as [Hev Hl].
  destruct (persists ev); [discriminate | auto].
Qed.

Lemma no_signal_app {net} (l1 l2 : list (event net)) :
  no_signal l1 -> no_signal l2 -> no_signal (l1 ++ l2).
Proof.
  unfold no_signal. intros H1 H2. rewrite forallb_app, H1, H2. reflexivity.
Qed.

Lemma no_artifact_app {net} (l1 l2 : list (event net)) :
  no_artifact l1 -> no_artifact l2 -> no_artifact (l1 ++ l2).
Proof.
  unfold no_artifact. intros H1 H2. rewrite forallb_app, H1, H2. reflexivity.
Qed.

Lemma no_signal_absent {net} (l pre post : list (event net)) :
  no_signal l -> l <> pre ++ TrialShouldPrune true :: post.
Proof.
  unfold no_signal. intros H ->. rewrite forallb_app in H.
  apply andb_true_iff in H as [_ H]. cbn in H. discriminate.
Qed.

Lemma signal_unique {net} (l pre post : list (event net)) :
  no_signal l ->
  l ++ [TrialShouldPrune true] = pre ++ TrialShouldPrune true :: post ->
  pre = l /\ post = [].
Proof.
  unfold no_signal. revert pre. induction l as [|y l IH]; intros pre Hl Heq.
  - destruct pre as [|x pre]; cbn in Heq.
    + injection Heq as <-. auto.
    + injection Heq as _ Heq. destruct pre; discriminate.
  - cbn in Hl. apply andb_true_iff in Hl as [Hy Hl].
    destruct pre as [|x pre]; cbn in Heq.
    + injection Heq as -> _. discriminate.
    + injection Heq as <- Heq. destruct (IH pre Hl Heq) as [-> ->]. auto.
Qed.

Lemma setup_events_no_signal T a : no_signal (setup_events T a).
Proof. apply quiet_no_signal, setup_events_quiet. Qed.

Lemma closing_events_no_signal T a model d tr :
  no_signal (closing_events T a model d tr).
Proof.
  unfold closing_events. apply no_signal_app.
  - destruct (save_training_results a); [apply save_events_no_signal | reflexivity].
  - destruct (_ && _); reflexivity.
Qed.

Lemma lengths_0 h : lengths h 0 -> h = no_history.
Proof.
  destruct h as [a b c d]. unfold lengths. cbn. intros (Ha & Hb & Hc & Hd).
  apply length_zero_iff_nil in Ha, Hb, Hc, Hd. subst. reflexivity.
Qed.

(** ** The toy backend meets what is asked of torch *)

Lemma toy_randperm_ok k : randperm_ok (Toy.torch k).
Proof.
  intros n g. cbn. unfold Toy.perm. cbn [fst].
  destruct (Nat.even g); [reflexivity | symmetry; apply Permutation_rev].
Qed.


(** ** [len(loader)] is the number of batches of a pass *)

Lemma batch_sampler_count b batch l :
  (List.length batch < b)%nat ->
  List.length (batch_sampler b batch l) =
  ((List.length batch + List.length l + b - 1) / b)%nat.
Proof.
  revert batch. induction l as [|idx rest IH]; intros batch Hlt; cbn [batch_sampler].
  - cbn [List.length]. rewrite Nat.add_0_r.
    destruct batch as [|x batch]; cbn [List.length Nat.ltb Nat.leb].
    + symmetry. apply Nat.div_small. lia.
    + cbn in Hlt.
      apply Nat.div_unique with (r := List.length batch); lia.
  - rewrite length_app. cbn [List.length].
    destruct (Nat.eqb_spec (List.length batch + 1) b) as [Heq|Hne].
    + cbn [List.length]. rewrite IH by (cbn; lia). cbn [List.length].
      replace (List.length batch + S (List.length rest) + b - 1)%nat
        with (1 * b + (0 + List.length rest + b - 1))%nat by lia.
      rewrite Nat.div_add_l by lia. reflexivity.
    + rewrite IH by (rewrite length_app; cbn; lia).
      rewrite length_app. cbn [List.length]. f_equal. lia.
Qed.

Lemma loader_len_batches T (l : loader) (w : world T) :
  randperm_ok T -> 1 <= bsize l ->
  exists batches,
    fst (iterate l w) = Return batches /\
    loader_len l = Z.of_nat (List.length batches).
Proof.
  intros Hp Hb. rewrite iterate_run. cbn [fst].
  eexists. split; [reflexivity|].
  rewrite batch_sampler_count by (cbn; lia). cbn [List.length].
  rewrite length_map, (Permutation_length (Hp _ _)), length_seq.
  unfold loader_len. rewrite Nat2Z.inj_div.
  f_equal; lia.
Qed.

(** * The claims *)

Section Claims.

Variable T : backend.
Variable D : tensor_dataset.

(** Once [should_prune] has answered [True] the call is over: it raised
    [TrialPruned] right after the report of that epoch. *)
Lemma pruned_shape a trial g r (w : world T) pre post :
  call T D a trial g = (r, w) ->
  trace w = pre ++ TrialShouldPrune true :: post ->
  post = [] /\ r = Raise TrialPruned /\
  exists pre' v k,
    pre = pre' ++ [TrialReport v k] /\ no_artifact pre' /\
    (k < Z.to_nat (epochs a))%nat /\ lengths (lists w) (S k).
Proof.
  intros Hcall Htrace. unfold call in Hcall.
  destruct (train_model_run T D a (mkWorld g trial no_history [])) as [Hpost _].
  rewrite Hcall in Hpost. cbn [fst snd] in Hpost.
  destruct r as [d|e].
  - exfalso. destruct Hpost as (_ & _ & added & model & Htr & Hq & _).
    cbn [trace app] in Htr.
    rewrite Htr in Htrace. revert Htrace. apply no_signal_absent.
    apply no_signal_app; [apply setup_events_no_signal|].
    apply no_signal_app; [apply quiet_no_signal, Hq|].
    apply closing_events_no_signal.
  - destruct e; cbn [call_post trace app] in Hpost;
      try (exfalso; destruct Hpost as (_ & _ & Htr & _); rewrite Htr in Htrace;
           revert Htrace; apply no_signal_absent, setup_events_no_signal).
    2:{ exfalso. destruct Hpost as (_ & _ & _ & added & model & Htr & Hq).
        rewrite Htr in Htrace. revert Htrace. apply no_signal_absent.
        apply no_signal_app; [apply setup_events_no_signal|].
        apply no_signal_app; [apply quiet_no_signal, Hq|].
        apply save_done_no_signal. }
    destruct Hpost as (added & v & k & tr' & Htr & Hq & Hk & Hl & _).
    rewrite Htr in Htrace.
    change [TrialReport v k; TrialShouldPrune true]
      with ([TrialReport v k] ++ [@TrialShouldPrune (net T) true]) in Htrace.
    rewrite !app_assoc in Htrace.
    apply signal_unique in Htrace as [-> ->].
    2:{ rewrite <- app_assoc. apply no_signal_app; [apply setup_events_no_signal|].
        apply no_signal_app; [apply quiet_no_signal, Hq | reflexivity]. }
    splits; try reflexivity.
    exists (setup_events T a ++ added), v, k. splits; try assumption; try reflexivity.
    apply no_artifact_app; apply quiet_no_artifact;
      [apply setup_events_quiet | exact Hq].
Qed.

(** C1, amended: when [should_prune] answers [True] at the end of the
    epoch with index [k], nothing happens after that answer (no further
    epoch, no persistence), the call raises [TrialPruned], a bare exception
    and so no history reaches the caller, and the lists of the aborted call
    hold the [k+1] epochs run so far. *)
Theorem prune_aborts_without_return a trial g pre post :
  trace (snd (call T D a trial g)) = pre ++ TrialShouldPrune true :: post ->
  post = [] /\
  fst (call T D a trial g) = Raise TrialPruned /\
  (forall d, fst (call T D a trial g) <> Return d) /\
  no_artifact (trace (snd (call T D a trial g))) /\
  exists pre' v k,
    pre = pre' ++ [TrialReport v k] /\
    (k < Z.to_nat (epochs a))%nat /\
    lengths (lists (snd (call T D a trial g))) (S k).
Proof.
  intros Htrace.
  destruct (call T D a trial g) as [r w] eqn:Hcall. cbn [fst snd] in *.
  destruct (pruned_shape a trial g r w pre post Hcall Htrace)
    as (-> & -> & pre' & v & k & -> & Hna & Hk & Hl).
  splits; try reflexivity.
  - discriminate.
  - rewrite Htrace. apply no_artifact_app; [|reflexivity].
    apply no_artifact_app; [exact Hna | reflexivity].
  - exists pre', v, k. auto.
Qed.

(** What the writes of [save_results] leave on disk when a directory is
    missing: a proper part of the four files. *)
Lemma save_done_written m s f model d az :
  dirs_ready T m s f az = false ->
  filter persists (save_done T m s f model d az) = [] \/
  filter persists (save_done T m s f model d az) =
    [TorchSave (Joinpath ProjectDir m) model] \/
  filter persists (save_done T m s f model d az) =
    [TorchSave (Joinpath ProjectDir m) model;
     PickleDump (Joinpath (Joinpath ProjectDir s) "train_val_dict.pickle") d].
Proof.
  intros H. destruct (save_done_short T m s f model d az H) as (_ & [->|[->| ->]]);
    cbn [filter persists]; auto.
Qed.

(** C2, amended: with [epochs = 0] (at least two samples, a batch size of
    at least one, a learning rate that Adam accepts, a torch whose loader
    iterators have [next]) no epoch is recorded, but [save_results] still
    runs whenever [save_training_results] holds.  When its directories are
    there (under Azure it makes them) the call returns the empty history
    and has written the weights, the pickled empty history and both plots.
    When one is missing the call raises [FileNotFoundError] at the first
    such write and returns nothing, having written at most the weights and
    the statistics.  With [save_training_results] off the call returns the
    empty history and nothing is written. *)
Theorem zero_epochs_run a trial g :
  randperm_ok T -> iter_next T = true ->
  (2 <= len D)%nat -> Z.of_nat (len D) < 2 ^ 48 ->
  1 <= batch_size a -> (0 <= learning_rate a)%Q -> epochs a = 0 ->
  let out := call T D a trial g in
  let m := trained_model_filepath a in
  let s := training_statistics_filepath a in
  let f := training_figures_filepath a in
  let fails :=
    save_training_results a && negb (dirs_ready T m s f (use_azure a)) in
  fst out = (if fails then Raise FileNotFoundError else Return no_history) /\
  lists (snd out) = no_history /\
  exists model,
    trace (snd out) =
      setup_events T a ++
      (if fails then save_done T m s f model no_history (use_azure a)
       else closing_events T a model no_history trial) /\
    (save_training_results a = false -> no_artifact (trace (snd out))) /\
    (save_training_results a = true ->
     dirs_ready T m s f (use_azure a) = true ->
     exists p1 p2 p3 p4,
       filter persists (trace (snd out)) =
       [TorchSave p1 model; PickleDump p2 no_history; Savefig p3; Savefig p4]) /\
    (save_training_results a = true ->
     dirs_ready T m s f (use_azure a) = false ->
     use_azure a = false /\
     (filter persists (trace (snd out)) = [] \/
      filter persists (trace (snd out)) =
        [TorchSave (Joinpath ProjectDir m) model] \/
      filter persists (trace (snd out)) =
        [TorchSave (Joinpath ProjectDir m) model;
         PickleDump (Joinpath (Joinpath ProjectDir s) "train_val_dict.pickle")
           no_history])).
Proof.
  intros Hp Hnext H2 Hn Hb Hlr He out m s f fails.
  enough (Hmain :
    fst out = (if fails then Raise FileNotFoundError else Return no_history) /\
    lists (snd out) = no_history /\
    exists model,
      trace (snd out) =
        setup_events T a ++
        (if fails then save_done T m s f model no_history (use_azure a)
         else closing_events T a model no_history trial)).
  { destruct Hmain as (Hr & Hl & model & Htr).
    splits; [exact Hr | exact Hl |].
    exists model. rewrite Htr. unfold fails.
    pose proof (no_artifact_filter _
                  (quiet_no_artifact _ (setup_events_quiet T a))) as Hset.
    splits; [reflexivity | | |].
    - intros Hs. rewrite Hs. cbn [andb]. unfold closing_events. rewrite Hs.
      cbn [app].
      apply no_artifact_app;
        [apply quiet_no_artifact, setup_events_quiet|].
      destruct (use_azure a && negb (is_some trial)); reflexivity.
    - intros Hs Hready. rewrite Hs, Hready. cbn [andb negb].
      unfold closing_events. rewrite Hs, !filter_app, Hset.
      destruct (save_events_artifacts T (trained_model_filepath a)
                  (training_statistics_filepath a) (training_figures_filepath a)
                  model no_history (use_azure a)) as (p1 & p2 & p3 & p4 & Hf).
      exists p1, p2, p3, p4. rewrite Hf. cbn [app].
      destruct (use_azure a && negb (is_some trial)); reflexivity.
    - intros Hs Hready. rewrite Hs, Hready. cbn [andb negb].
      rewrite filter_app, Hset. cbn [app].
      split; [apply (save_done_short T m s f model no_history _ Hready)|].
      apply save_done_written, Hready. }
  unfold out. clear out.
  destruct (call T D a trial g) as [r w'] eqn:Hrun. cbn [fst snd].
  revert Hrun. unfold call.
  set (w := mkWorld g trial no_history []).
  destruct (prepare_ok T D a w Hp Hnext H2 Hn Hb Hlr)
    as (tl & vl & model & w1 & Hok).
  destruct (prepare_run T D a w) as (rp & g' & Hprep & _).
  rewrite Hok in Hprep. injection Hprep as <- ->.
  cbn [handle lists trace w app] in Hok.
  unfold train_model. rewrite (bind_return _ _ _ _ _ _ _ _ Hok).
  unfold bind at 1. unfold training_loop. unfold bind at 1.
  unfold set_lists at 1. rewrite He.
  cbn [Z.to_nat seq for_each gen handle lists trace]. unfold ret at 1.
  unfold bind at 1. unfold get_lists at 1. unfold bind at 1.
  unfold when at 1. cbn [lists].
  set (w2 := mkWorld g' trial no_history (setup_events T a)).
  fold m s f.
  assert (Hsaved :
    (if save_training_results a
     then save_results T m s f model no_history (use_azure a)
     else ret tt) w2 =
    (if fails then Raise FileNotFoundError else Return tt,
     mkWorld g' trial no_history
       (setup_events T a ++
        if save_training_results a
        then save_done T m s f model no_history (use_azure a)
        else []))).
  { unfold fails. destruct (save_training_results a).
    - rewrite save_results_run.
      destruct (dirs_ready T m s f (use_azure a)); reflexivity.
    - unfold ret. rewrite app_nil_r. reflexivity. }
  rewrite Hsaved. clear Hsaved.
  destruct fails eqn:Hfail.
  - apply andb_true_iff in Hfail as [Hsave _]. rewrite Hsave.
    intros Hrun. injection Hrun as <- <-. cbn [lists trace].
    splits; [reflexivity | reflexivity |]. exists model. reflexivity.
  - assert (Hdone :
      (if save_training_results a
       then save_done T m s f model no_history (use_azure a) else []) =
      (if save_training_results a
       then save_events T m s f model no_history (use_azure a) else [])).
    { unfold fails in Hfail. destruct (save_training_results a); [|reflexivity].
      apply save_done_ready.
      destruct (dirs_ready T m s f (use_azure a)); [reflexivity | discriminate]. }
    rewrite Hdone.
    unfold get_handle at 1. unfold bind at 1. cbn [handle].
    unfold when, emit, ret, bind. cbn [gen handle lists trace].
    unfold closing_events. fold m s f.
    destruct (use_azure a && negb (is_some trial));
      intros Hrun; injection Hrun as <- <-; cbn [lists trace];
      (splits; [reflexivity | reflexivity |]); exists model;
      rewrite <- ?app_assoc, ?app_nil_r; reflexivity.
Qed.

(** C3, amended: there is no split fraction to validate and no dedicated
    error.  With fewer than two samples the split itself succeeds, with an
    empty training part; the call then fails with the [ValueError] of the
    [DataLoader] constructor, in [prepare], before the loop: the lists are
    untouched. *)
Theorem short_dataset_fails_in_loader a (w : world T) :
  (len D < 2)%nat ->
  (exists val_data, fst (split_data T D w) = Return ([], val_data)) /\
  fst (prepare T D a w) = Raise ValueError /\
  fst (train_model T D a w) = Raise ValueError /\
  lists (snd (train_model T D a w)) = lists w.
Proof.
  intros Hlt.
  assert (Hn : Z.of_nat (len D) < 2 ^ 48) by lia.
  assert (Ht : train_n (len D) = 0%nat).
  { destruct (len D) as [|[|n]]; [reflexivity | reflexivity | lia]. }
  assert (Hsplit : forall w0 : world T, exists val_data g0,
             split_data T D w0 =
             (Return ([], val_data),
              mkWorld g0 (handle w0) (lists w0) (trace w0))).
  { intros w0. rewrite (split_data_run T D w0 Hn), Ht. cbn [firstn].
    eexists _, _. reflexivity. }
  assert (Hprep : exists w', prepare T D a w = (Raise ValueError, w') /\
                             lists w' = lists w).
  { unfold prepare, splitter, reseed.
    unfold bind at 1. unfold bind at 1. unfold set_gen at 1.
    unfold bind at 1. rewrite azure_setup_run.
    set (w1 := mkWorld _ _ _ _).
    destruct (Hsplit w1) as (val_data & g0 & Hs). rewrite Hs.
    unfold bind, DataLoader, raise. cbn [List.length Nat.eqb].
    eexists. split; reflexivity. }
  destruct Hprep as (w' & Hprep & Hl).
  splits.
  - destruct (Hsplit w) as (val_data & g0 & ->). exists val_data. reflexivity.
  - rewrite Hprep. reflexivity.
  - unfold train_model. rewrite (bind_raise _ _ _ _ _ _ _ _ Hprep). reflexivity.
  - unfold train_model. rewrite (bind_raise _ _ _ _ _ _ _ _ Hprep). exact Hl.
Qed.


(** C5: the [seed] argument has no effect; two calls that differ in it
    only give the same result and leave the same world. *)
Theorem seed_is_ignored a s1 s2 (w : world T) :
  train_model T D (with_seed a s1) w = train_model T D (with_seed a s2) w.
Proof. reflexivity. Qed.

End Claims.

Section Determinism.

Variable T : backend.

Lemma split_data_gen D1 D2 (w1 w2 : world T) :
  len D1 = len D2 -> gen w1 = gen w2 ->
  fst (split_data T D1 w1) = fst (split_data T D2 w2).
Proof.
  intros Hlen Hg. unfold split_data, random_split. rewrite Hlen.
  destruct (_ =? _)%nat; [|reflexivity].
  unfold bind, draw, ret. rewrite Hg.
  destruct (randperm T (len D2) (gen w2)). reflexivity.
Qed.

(** C6: the split of a call is a function of the dataset length alone:
    whatever state the generator was in and whatever else the world
    holds, two calls on datasets of the same length, with the same seed
    (and the one fraction the code has), cut the same two index lists. *)
Theorem splitter_deterministic D1 D2 a1 a2 (w1 w2 : world T) :
  len D1 = len D2 -> seed a1 = seed a2 ->
  fst (splitter T D1 a1 w1) = fst (splitter T D2 a2 w2).
Proof.
  intros Hlen _. unfold splitter, reseed.
  unfold bind at 1. unfold set_gen at 1. unfold bind at 1.
  rewrite azure_setup_run.
  unfold bind at 1. unfold set_gen at 1. unfold bind at 1.
  rewrite azure_setup_run.
  apply split_data_gen; [exact Hlen | reflexivity].
Qed.

End Determinism.

Section Partition.

Variable T : backend.
Variable D : tensor_dataset.

(** C7: with the code's fraction 0.85 the training part has
    [floor (85 N / 100)] indices, the validation part the other
    [N - floor (85 N / 100)]; the parts share no index and together are
    the indices [0 .. N-1]. *)
Theorem split_partition (w : world T) :
  randperm_ok T -> Z.of_nat (len D) < 2 ^ 48 ->
  exists train_data val_data,
    fst (split_data T D w) = Return (train_data, val_data) /\
    List.length train_data = (85 * len D / 100)%nat /\
    List.length val_data = (len D - 85 * len D / 100)%nat /\
    (forall i, In i train_data -> ~ In i val_data) /\
    Permutation (train_data ++ val_data) (seq 0 (len D)).
Proof.
  intros Hp Hn. rewrite (split_data_run T D w Hn). cbn [fst].
  set (idx := fst (randperm T (len D) (gen w))).
  pose proof (Hp (len D) (gen w)) as Hperm. fold idx in Hperm.
  destruct (split_slices idx (len D) Hn Hperm) as (Htr & Hva & Happ).
  assert (H85 : (85 * len D / 100 = 17 * len D / 20)%nat).
  { replace (85 * len D)%nat with (5 * (17 * len D))%nat by lia.
    change 100%nat with (5 * 20)%nat.
    rewrite Nat.Div0.div_mul_cancel_l by lia. reflexivity. }
  eexists _, _. split; [reflexivity|].
  splits.
  - rewrite Htr, (train_n_floor _ Hn), H85. reflexivity.
  - rewrite Hva. unfold val_n. rewrite (train_n_floor _ Hn), H85. reflexivity.
  - intros i. apply NoDup_app_disjoint. rewrite Happ.
    apply (Permutation_NoDup (Permutation_sym Hperm)), seq_NoDup.
  - rewrite Happ. exact Hperm.
Qed.

End Partition.

Section MoreClaims.

Variable T : backend.
Variable D : tensor_dataset.

(** Without a trial handle a call returns, when the lines before the loop
    accept the dataset, the batch size, the learning rate and the torch,
    and [save_results], if it runs, finds its directories. *)
Lemma call_returns a g :
  randperm_ok T -> iter_next T = true ->
  (2 <= len D)%nat -> Z.of_nat (len D) < 2 ^ 48 ->
  1 <= batch_size a -> (0 <= learning_rate a)%Q ->
  (save_training_results a = true ->
   dirs_ready T (trained_model_filepath a) (training_statistics_filepath a)
     (training_figures_filepath a) (use_azure a) = true) ->
  exists d, fst (call T D a None g) = Return d.
Proof.
  intros Hp Hnext H2 Hn Hb Hlr Hready. unfold call.
  set (w := mkWorld g None no_history []).
  destruct (train_model_run T D a w) as [Hpost _].
  destruct (prepare_ok T D a w Hp Hnext H2 Hn Hb Hlr)
    as (tl & vl & model & w' & Hok).
  destruct (train_model T D a w) as [[d|e] w2] eqn:Hrun; cbn [fst snd] in *.
  - exists d. reflexivity.
  - exfalso. destruct e; cbn [call_post] in Hpost.
    4:{ destruct Hpost as (_ & _ & _ & _ & _ & _ & _ & _ & _ & _ & Hno).
        apply Hno. reflexivity. }
    4:{ destruct Hpost as (Hsave & Hnot & _).
        rewrite (Hready Hsave) in Hnot. discriminate. }
    all: destruct Hpost as (_ & _ & _ & Hraise);
      rewrite Hok in Hraise; discriminate.
Qed.

(** C8, amended: a call that returns hands back lists of exactly
    [max_epochs] entries each; a call pruned at the epoch with (0-based)
    index [k], the index reported to the trial, leaves lists of [k+1]
    entries.  Without a trial the call does return, on inputs that the
    lines before the loop accept and on a disk that has the directories
    [save_results] writes into. *)
Theorem history_length a trial g r (w : world T) :
  call T D a trial g = (r, w) ->
  (forall d, r = Return d -> lengths d (Z.to_nat (epochs a))) /\
  (forall pre v k,
     trace w = pre ++ [TrialReport v k; TrialShouldPrune true] ->
     r = Raise TrialPruned /\ lengths (lists w) (S k)) /\
  (trial = None -> randperm_ok T -> iter_next T = true ->
   (2 <= len D)%nat -> Z.of_nat (len D) < 2 ^ 48 ->
   1 <= batch_size a -> (0 <= learning_rate a)%Q ->
   (save_training_results a = true ->
    dirs_ready T (trained_model_filepath a) (training_statistics_filepath a)
      (training_figures_filepath a) (use_azure a) = true) ->
   exists d, r = Return d).
Proof.
  intros Hcall. splits.
  - intros d ->. unfold call in Hcall.
    destruct (train_model_run T D a (mkWorld g trial no_history [])) as [Hpost _].
    rewrite Hcall in Hpost. cbn [fst snd call_post] in Hpost. apply Hpost.
  - intros pre v k Htrace.
    change [TrialReport v k; TrialShouldPrune true]
      with ([TrialReport v k] ++ [@TrialShouldPrune (net T) true]) in Htrace.
    rewrite app_assoc in Htrace.
    destruct (pruned_shape T D a trial g r w _ _ Hcall Htrace)
      as (_ & -> & pre' & v' & k' & Hpre & _ & _ & Hl).
    apply app_inj_tail in Hpre as [_ Hev]. injection Hev as _ ->.
    split; [reflexivity | exact Hl].
  - intros -> Hp Hnext H2 Hn Hb Hlr Hready.
    destruct (call_returns a g Hp Hnext H2 Hn Hb Hlr Hready) as (d & Hd).
    rewrite Hcall in Hd. exists d. exact Hd.
Qed.

(** C9: one pass over a loader yields batches whose lengths add up to the
    size of the partition; all but the last have [batch_size] samples, the
    last between one and [batch_size]; every sample of the partition is in
    exactly one batch. *)
Theorem batch_coverage l (w : world T) :
  randperm_ok T -> 1 <= bsize l ->
  exists batches,
    fst (iterate l w) = Return batches /\
    list_sum (map (@List.length nat) batches) = List.length (subset l) /\
    (forall i, (S i < List.length batches)%nat ->
       List.length (nth i batches []) = Z.to_nat (bsize l)) /\
    Forall (fun b => (1 <= List.length b <= Z.to_nat (bsize l))%nat) batches /\
    Permutation (concat batches) (subset l).
Proof.
  intros Hp Hb. rewrite iterate_run. cbn [fst].
  set (sampler := map _ _).
  assert (Hwb : well_batched (Z.to_nat (bsize l))
                  (batch_sampler (Z.to_nat (bsize l)) [] sampler)).
  { apply batch_sampler_well_batched. cbn. lia. }
  eexists. split; [reflexivity|]. splits.
  - rewrite sum_lengths_concat. apply pass_length. exact Hp.
  - intros i. apply well_batched_full. exact Hwb.
  - apply well_batched_sizes. exact Hwb.
  - rewrite batch_sampler_concat. cbn [app]. apply shuffled_subset. exact Hp.
Qed.


End MoreClaims.

(** * Concrete runs *)

(** The scenarios of the specification, on the toy backend. *)
Example scenario_A : train_n 1000 = 850%nat /\ val_n 1000 = 150%nat.
Proof. split; vm_compute; reflexivity. Qed.

Example scenario_C :
  let out := call (Toy.torch 2) (Toy.data 20) (Toy.run 3 4) (Some []) 0%nat in
  fst out = Raise TrialPruned /\
  List.length (val_accuracies (lists (snd out))) = 3%nat /\
  filter persists (trace (snd out)) = [].
Proof. cbv zeta. splits; vm_compute; reflexivity. Qed.

(** C1, as stated, fails: a call pruned at epoch 0 has recorded one epoch,
    yet it ends in a raise and returns no history. *)
Lemma pruned_call_returns_no_history :
  let out := call (Toy.torch 0) (Toy.data 20) (Toy.run 3 4) (Some []) 0%nat in
  fst out = Raise TrialPruned /\
  lengths (lists (snd out)) 1 /\
  ~ (exists d, fst out = Return d).
Proof.
  cbv zeta. splits.
  - vm_compute. reflexivity.
  - vm_compute. auto.
  - intros [d Hd]. vm_compute in Hd. discriminate.
Qed.

Lemma prune_aborts_without_return_witness :
  let out := call (Toy.torch 0) (Toy.data 20) (Toy.run 3 4) (Some []) 0%nat in
  trace (snd out) = [TrialReport (3 # 3) 0%nat] ++ TrialShouldPrune true :: [] /\
  fst out = Raise TrialPruned /\
  no_artifact (trace (snd out)).
Proof.
  cbv zeta.
  assert (H : trace (snd (call (Toy.torch 0) (Toy.data 20) (Toy.run 3 4)
                            (Some []) 0%nat)) =
              [TrialReport (3 # 3) 0%nat] ++ TrialShouldPrune true :: [])
    by (vm_compute; reflexivity).
  pose proof (prune_aborts_without_return (Toy.torch 0) (Toy.data 20)
                (Toy.run 3 4) (Some []) 0%nat _ _ H) as (_ & Hr & _ & Hna & _).
  splits; assumption.
Defined.

(** C2, as stated, fails: with [epochs = 0] and everything else at its
    default the call returns empty lists and still writes the weights, the
    statistics and both plots. *)
Lemma zero_epochs_still_persist :
  let out := call (Toy.torch 0) (Toy.data 20) (Toy.run 0 250) None 0%nat in
  Toy.run 0 250 =
    with_epochs
      (default_args "models/trained_model.pth" "reports/" "reports/figures/") 0 /\
  fst out = Return no_history /\
  filter persists (trace (snd out)) =
    [TorchSave (Joinpath ProjectDir "models/trained_model.pth") 0%nat;
     PickleDump (Joinpath (Joinpath ProjectDir "reports/") "train_val_dict.pickle")
       no_history;
     Savefig (Joinpath (Joinpath ProjectDir "reports/figures/") "Training_Loss.pdf");
     Savefig (Joinpath (Joinpath ProjectDir "reports/figures/")
                "Training_Accuracy.pdf")].
Proof. cbv zeta. splits; vm_compute; reflexivity. Qed.

(** The same call on a disk that has [models/] but not [reports/]: the
    weights are written, then the call raises. *)
Lemma zero_epochs_run_witness :
  let T := Toy.torch_on Toy.only_models 0 in
  let out := call T (Toy.data 20) (Toy.run 0 4) None 0%nat in
  (2 <= len (Toy.data 20))%nat /\ epochs (Toy.run 0 4) = 0 /\
  fst out = Raise FileNotFoundError /\
  filter persists (trace (snd out)) =
    [TorchSave (Joinpath ProjectDir "models/trained_model.pth") 0%nat].
Proof.
  cbv zeta.
  assert (H2 : (2 <= len (Toy.data 20))%nat) by (cbn; lia).
  assert (Hn : Z.of_nat (len (Toy.data 20)) < 2 ^ 48) by (cbn; lia).
  assert (Hb : 1 <= batch_size (Toy.run 0 4)) by (cbn; lia).
  assert (Hlr : (0 <= learning_rate (Toy.run 0 4))%Q)
    by (vm_compute; discriminate).
  assert (He : epochs (Toy.run 0 4) = 0) by reflexivity.
  splits; [exact H2 | exact He | |].
  - exact (proj1 (zero_epochs_run (Toy.torch_on Toy.only_models 0)
                    (Toy.data 20) (Toy.run 0 4) None 0%nat
                    (toy_randperm_ok 0) eq_refl H2 Hn Hb Hlr He)).
  - vm_compute. reflexivity.
Defined.

(** C3, as stated, fails: on a dataset of one sample the split succeeds. *)
Lemma split_of_one_sample_succeeds :
  fst (split_data (Toy.torch 0) (Toy.data 1) (Toy.start 0)) =
  Return ([], [0%nat]).
Proof. vm_compute. reflexivity. Qed.

Lemma short_dataset_fails_in_loader_witness :
  (len (Toy.data 1) < 2)%nat /\
  fst (train_model (Toy.torch 0) (Toy.data 1) (Toy.run 1 4) (Toy.start 0)) =
    Raise ValueError.
Proof.
  assert (H : (len (Toy.data 1) < 2)%nat) by (cbn; lia).
  split; [exact H|].
  apply (short_dataset_fails_in_loader (Toy.torch 0) (Toy.data 1) (Toy.run 1 4)
           (Toy.start 0) H).
Defined.


Lemma splitter_deterministic_witness :
  len (Toy.data 20) = len {| len := 20; label := fun i => Z.of_nat i |} /\
  seed (Toy.run 1 4) = seed (Toy.run 3 250) /\
  fst (splitter (Toy.torch 0) (Toy.data 20) (Toy.run 1 4)
         (mkWorld (T:=Toy.torch 0) 7%nat None no_history [])) =
  fst (splitter (Toy.torch 0) {| len := 20; label := fun i => Z.of_nat i |}
         (Toy.run 3 250)
         (mkWorld (T:=Toy.torch 0) 12%nat (Some []) no_history [])).
Proof.
  assert (Hl : len (Toy.data 20) =
               len {| len := 20; label := fun i => Z.of_nat i |})
    by reflexivity.
  assert (H : seed (Toy.run 1 4) = seed (Toy.run 3 250)) by reflexivity.
  splits; [exact Hl | exact H |].
  apply (splitter_deterministic (Toy.torch 0) _ _ _ _ _ _ Hl H).
Defined.

Lemma split_partition_witness :
  Z.of_nat (len (Toy.data 20)) < 2 ^ 48 /\
  exists train_data val_data,
    fst (split_data (Toy.torch 0) (Toy.data 20) (Toy.start 0)) =
      Return (train_data, val_data) /\
    List.length train_data = (85 * len (Toy.data 20) / 100)%nat /\
    List.length val_data = (len (Toy.data 20) - 85 * len (Toy.data 20) / 100)%nat /\
    (forall i, In i train_data -> ~ In i val_data) /\
    Permutation (train_data ++ val_data) (seq 0 (len (Toy.data 20))).
Proof.
  assert (H : Z.of_nat (len (Toy.data 20)) < 2 ^ 48) by (cbn; lia).
  split; [exact H|].
  apply (split_partition (Toy.torch 0) (Toy.data 20) (Toy.start 0)
           (toy_randperm_ok 0) H).
Defined.

(** C8, as stated, fails: a call pruned at the epoch with index 1 has two
    entries in each list, not one. *)
Lemma pruned_at_1_has_two_entries :
  let out := call (Toy.torch 1) (Toy.data 20) (Toy.run 3 4) (Some []) 0%nat in
  fst out = Raise TrialPruned /\
  trace (snd out) =
    [TrialReport (3 # 3) 0%nat; TrialShouldPrune false;
     TrialReport (3 # 3) 1%nat; TrialShouldPrune true] /\
  lengths (lists (snd out)) 2 /\
  ~ lengths (lists (snd out)) 1.
Proof.
  cbv zeta. splits.
  - vm_compute. reflexivity.
  - vm_compute. reflexivity.
  - vm_compute. auto.
  - intros (H & _). vm_compute in H. discriminate.
Qed.

Lemma history_length_witness :
  let out := call (Toy.torch 2) (Toy.data 20) (Toy.run 2 4) None 0%nat in
  call (Toy.torch 2) (Toy.data 20) (Toy.run 2 4) None 0%nat = (fst out, snd out) /\
  exists d, fst out = Return d /\ lengths d 2.
Proof.
  cbv zeta.
  assert (H : call (Toy.torch 2) (Toy.data 20) (Toy.run 2 4) None 0%nat =
              (fst (call (Toy.torch 2) (Toy.data 20) (Toy.run 2 4) None 0%nat),
               snd (call (Toy.torch 2) (Toy.data 20) (Toy.run 2 4) None 0%nat)))
    by (vm_compute; reflexivity).
  split; [exact H|].
  destruct (history_length (Toy.torch 2) (Toy.data 20) (Toy.run 2 4) None 0%nat
              _ _ H) as (Hret & _ & Htot).
  destruct (Htot eq_refl (toy_randperm_ok 2) eq_refl ltac:(cbn; lia)
              ltac:(cbn; lia) ltac:(cbn; lia) ltac:(vm_compute; discriminate)
              (fun _ => eq_refl)) as (d & Hd).
  exists d. split; [exact Hd | exact (Hret d Hd)].
Defined.

Lemma batch_coverage_witness :
  1 <= bsize {| subset := seq 0 103; bsize := 25 |} /\
  exists batches,
    fst (iterate {| subset := seq 0 103; bsize := 25 |} (Toy.start 0)) =
      Return batches /\
    list_sum (map (@List.length nat) batches) = 103%nat.
Proof.
  assert (H : 1 <= bsize {| subset := seq 0 103; bsize := 25 |}) by (cbn; lia).
  split; [exact H|].
  destruct (batch_coverage (Toy.torch 0) {| subset := seq 0 103; bsize := 25 |}
              (Toy.start 0) (toy_randperm_ok 0) H) as (batches & Hrun & Hsum & _).
  exists batches. split; [exact Hrun|]. rewrite Hsum. apply length_seq.
Defined.


(** * Further properties of [train_model] *)

Section Traces.

Variable T : backend.
Variable D : tensor_dataset.

Lemma trial_events_cons (v : Q) (rest : list Q) s fin :
  (rest = [] -> fin = false) ->
  @trial_events (net T) (v :: rest) s fin =
  [TrialReport v s; TrialShouldPrune false] ++ trial_events rest (S s) fin.
Proof.
  intros H. cbn [trial_events app].
  destruct rest; [rewrite (H eq_refl)|]; reflexivity.
Qed.

(** The loop, event by event. *)
Lemma loop_trace lr tl vl :
  valid_loader tl -> valid_loader vl ->
  forall n s m (w : world T) r w',
    for_each (seq s n) (epoch T D lr tl vl) m w = (r, w') ->
    exists new,
      val_accuracies (lists w') = val_accuracies (lists w) ++ new /\
      is_some (handle w') = is_some (handle w) /\
      trace w' =
        trace w ++
        (if is_some (handle w) then trial_events new s (raised r) else []) /\
      (raised r = true -> new <> [] /\ handle w <> None).
Proof.
  intros Ht Hv. induction n as [|n IH]; intros s m w r w' Hrun.
  - cbn in Hrun. injection Hrun as <- <-. exists [].
    rewrite !app_nil_r. splits; try reflexivity.
    + destruct (is_some (handle w)); cbn; now rewrite app_nil_r.
    + discriminate.
  - cbn [seq for_each] in Hrun.
    destruct (epoch_run T D lr tl vl s m w Ht Hv)
      as (m' & g' & a & b & c & d & Hep & _).
    destruct (handle w) as [tr|] eqn:Hh.
    + cbn zeta in Hep.
      destruct (should_prune T (report T tr d s)) eqn:Hsp.
      * rewrite (bind_raise _ _ _ _ _ _ _ _ Hep) in Hrun.
        injection Hrun as <- <-. exists [d].
        cbn [lists handle trace push val_accuracies is_some raised trial_events].
        splits; try reflexivity. intros _. split; discriminate.
      * rewrite (bind_return _ _ _ _ _ _ _ _ Hep) in Hrun.
        destruct (IH _ _ _ _ _ Hrun) as (new & Hva & Hsome & Htr & Hraised).
        cbn [lists handle trace push val_accuracies is_some] in Hva, Hsome, Htr.
        exists (d :: new). rewrite Hva, Hsome, Htr.
        cbn [is_some]. rewrite <- !app_assoc.
        splits; try reflexivity.
        -- rewrite trial_events_cons; [reflexivity|].
           intros ->. destruct (raised r); [|reflexivity].
           destruct (Hraised eq_refl) as [Hne _]. contradiction.
        -- intros _. split; discriminate.
    + rewrite (bind_return _ _ _ _ _ _ _ _ Hep) in Hrun.
      destruct (IH _ _ _ _ _ Hrun) as (new & Hva & Hsome & Htr & Hraised).
      cbn [lists handle trace push val_accuracies is_some] in Hva, Hsome, Htr, Hraised.
      exists (d :: new). rewrite Hva, Hsome, Htr.
      cbn [is_some]. rewrite <- !app_assoc.
      splits; try reflexivity.
      intros Hr. destruct (Hraised Hr) as [_ Hno]. contradiction.
Qed.

End Traces.

Section Shape.

Variable T : backend.
Variable D : tensor_dataset.

Lemma closing_events_is_some a model d (t1 t2 : option (trial T)) :
  is_some t1 = is_some t2 ->
  closing_events T a model d t1 = closing_events T a model d t2.
Proof. intros H. unfold closing_events. rewrite H. reflexivity. Qed.

(** The whole trace of a call: the set-up, then the conversation with the
    trial, one report and one question per recorded epoch, then, if the
    call returns, the closing events; if it fails on a missing directory,
    what [save_results] got done before. *)
Lemma call_shape a trial g r (w' : world T) :
  call T D a trial g = (r, w') ->
  is_some (handle w') = is_some trial /\
  exists tail,
    trace w' = call_trace T a trial r w' tail /\
    match r with
    | Return d =>
        d = lists w' /\ exists model, tail = closing_events T a model d trial
    | Raise FileNotFoundError =>
        use_azure a = false /\
        exists model,
          tail = save_done T (trained_model_filepath a)
                   (training_statistics_filepath a)
                   (training_figures_filepath a) model (lists w') false
    | Raise _ => tail = []
    end.
Proof.
  unfold call, call_trace. set (w := mkWorld g trial no_history []).
  unfold train_model.
  destruct (prepare_run T D a w) as (rp & g1 & Hprep & Hr).
  destruct rp as [[[tl vl] model]|e].
  2:{ rewrite (bind_raise _ _ _ _ _ _ _ _ Hprep). intros Hrun.
      injection Hrun as <- <-. cbn [handle lists trace w no_history
                                    val_accuracies trial_events app].
      split; [reflexivity|]. exists [].
      split; [|destruct e; try discriminate Hr; reflexivity].
      destruct (is_some trial); now rewrite ?app_nil_r. }
  destruct Hr as (Ht & Hv & _).
  rewrite (bind_return _ _ _ _ _ _ _ _ Hprep).
  unfold bind at 1. unfold training_loop. unfold bind at 1.
  unfold set_lists at 1. cbn [gen handle lists trace w app].
  set (w1 := mkWorld g1 trial no_history (setup_events T a)).
  destruct (loop_run T D (learning_rate a) tl vl Ht Hv
              (Z.to_nat (epochs a)) 0%nat model w1) as [Hpost _].
  { unfold lengths. cbn. auto. }
  destruct (for_each (seq 0 (Z.to_nat (epochs a)))
              (epoch T D (learning_rate a) tl vl) model w1)
    as [[model'|e] w2] eqn:Hloop;
    destruct (loop_trace T D (learning_rate a) tl vl Ht Hv _ _ _ _ _ _ Hloop)
      as (new & Hva & Hsome & Htr & _);
    cbn [lists handle trace w1 no_history val_accuracies app raised]
      in Hva, Hsome, Htr; cbn [fst snd loop_post] in Hpost.
  - clear Hpost. unfold bind at 1. unfold get_lists at 1.
    unfold bind at 1. unfold when at 1.
    set (m := trained_model_filepath a).
    set (s := training_statistics_filepath a).
    set (f := training_figures_filepath a).
    assert (Hsaved :
      (if save_training_results a
       then save_results T m s f model' (lists w2) (use_azure a)
       else ret tt) w2 =
      (if save_training_results a && negb (dirs_ready T m s f (use_azure a))
       then Raise FileNotFoundError else Return tt,
       mkWorld (gen w2) (handle w2) (lists w2)
         (trace w2 ++ if save_training_results a
                      then save_done T m s f model' (lists w2) (use_azure a)
                      else []))).
    { destruct (save_training_results a).
      - rewrite save_results_run.
        destruct (dirs_ready T m s f (use_azure a)); reflexivity.
      - unfold ret. rewrite app_nil_r. destruct w2; reflexivity. }
    rewrite Hsaved. clear Hsaved.
    destruct (save_training_results a && negb (dirs_ready T m s f (use_azure a)))
      eqn:Hfail.
    + apply andb_true_iff in Hfail as [Hsave Hready].
      apply negb_true_iff in Hready.
      destruct (save_done_short T m s f model' (lists w2) _ Hready) as [Haz _].
      rewrite Hsave, Haz. intros Hrun. injection Hrun as <- <-.
      cbn [handle lists trace pruned]. rewrite Htr, Hva, Hsome.
      split; [reflexivity|].
      exists (save_done T m s f model' (lists w2) false).
      rewrite <- !app_assoc. split; [reflexivity|].
      split; [reflexivity|]. exists model'. reflexivity.
    + assert (Hdone :
        (if save_training_results a
         then save_done T m s f model' (lists w2) (use_azure a) else []) =
        (if save_training_results a
         then save_events T m s f model' (lists w2) (use_azure a) else [])).
      { destruct (save_training_results a); [|reflexivity].
        apply save_done_ready.
        destruct (dirs_ready T m s f (use_azure a));
          [reflexivity | discriminate]. }
      rewrite Hdone. clear Hdone.
      unfold get_handle at 1. unfold bind at 1. cbn [handle].
      unfold when, emit, ret, bind. cbn [gen handle lists trace].
      intros Hrun.
      assert (Hfin : r = Return (lists w2) /\
                     handle w' = handle w2 /\ lists w' = lists w2 /\
                     trace w' = trace w2 ++
                                closing_events T a model' (lists w2) (handle w2)).
      { unfold closing_events. fold m s f.
        destruct (use_azure a && negb (is_some (handle w2)));
          injection Hrun as <- <-; cbn [handle lists trace];
          rewrite <- ?app_assoc, ?app_nil_r; auto. }
      destruct Hfin as (-> & Hh & Hl & Htr').
      rewrite Hh, Hl, Htr', Htr, Hva, Hsome. cbn [pruned].
      split; [reflexivity|].
      exists (closing_events T a model' (lists w2) (handle w2)).
      rewrite <- !app_assoc. split; [reflexivity|].
      split; [reflexivity|]. exists model'.
      apply closing_events_is_some. exact Hsome.
  - destruct Hpost as (-> & _).
    intros Hrun. injection Hrun as <- <-. rewrite Htr, Hva, Hsome.
    cbn [pruned]. split; [reflexivity|]. exists [].
    rewrite !app_nil_r. split; reflexivity.
Qed.

End Shape.

(** ** Reading a trace *)

Lemma reports_app {net} (l1 l2 : list (event net)) :
  reports (l1 ++ l2) = reports l1 ++ reports l2.
Proof. apply flat_map_app. Qed.

Lemma answers_app {net} (l1 l2 : list (event net)) :
  answers (l1 ++ l2) = answers l1 ++ answers l2.
Proof. apply flat_map_app. Qed.

Lemma logged_app {net} (l1 l2 : list (event net)) :
  logged (l1 ++ l2) = logged l1 ++ logged l2.
Proof. apply flat_map_app. Qed.

Lemma logged_lists_app {net} (l1 l2 : list (event net)) :
  logged_lists (l1 ++ l2) = logged_lists l1 ++ logged_lists l2.
Proof. apply flat_map_app. Qed.

Lemma reports_trial_events {net} vs s fin :
  reports (@trial_events net vs s fin) = combine vs (seq s (List.length vs)).
Proof.
  revert s. induction vs as [|v rest IH]; intros s; [reflexivity|].
  cbn [trial_events reports flat_map app List.length seq combine].
  f_equal. apply IH.
Qed.

Lemma answers_trial_events {net} vs s fin :
  answers (@trial_events net vs s fin) =
  match vs with
  | [] => []
  | _ :: rest => repeat false (List.length rest) ++ [fin]
  end.
Proof.
  revert s. induction vs as [|v rest IH]; intros s; [reflexivity|].
  cbn [trial_events answers flat_map app].
  fold (@answers net (trial_events rest (S s) fin)). rewrite IH.
  destruct rest; reflexivity.
Qed.

Lemma trial_events_quiet_parts {net} vs s fin :
  @logged net (trial_events vs s fin) = [] /\
  @logged_lists net (trial_events vs s fin) = [] /\
  forallb (fun ev => negb (remote ev)) (@trial_events net vs s fin) = true /\
  no_artifact (@trial_events net vs s fin).
Proof.
  revert s. induction vs as [|v rest IH]; intros s; [repeat split|].
  destruct (IH (S s)) as (H1 & H2 & H3 & H4).
  cbn [trial_events]. unfold logged, logged_lists, no_artifact in *.
  cbn [flat_map forallb app remote persists negb andb].
  auto.
Qed.

Lemma setup_events_parts T a :
  reports (setup_events T a) = [] /\ answers (setup_events T a) = [] /\
  logged_lists (setup_events T a) = [] /\
  logged (setup_events T a) =
    (if use_azure a
     then [("Learning rate"%string, learning_rate a);
           ("Epochs"%string, inject_Z (epochs a));
           ("Dropout"%string, dropout_p a)]
     else []) /\
  (use_azure a = false -> setup_events T a = []).
Proof.
  unfold setup_events. destruct (use_azure a); repeat split; discriminate.
Qed.

Lemma save_events_parts T m s f model d az :
  reports (save_events T m s f model d az) = [] /\
  answers (save_events T m s f model d az) = [] /\
  logged (save_events T m s f model d az) = [] /\
  logged_lists (save_events T m s f model d az) =
    (if az
     then [("Train loss"%string, train_losses d);
           ("Train accuracy"%string, train_accuracies d);
           ("Validation loss"%string, val_losses d);
           ("Validation accuracy"%string, val_accuracies d)]
     else []) /\
  ~ In RunComplete (save_events T m s f model d az) /\
  (az = false ->
   forallb (fun ev => negb (remote ev)) (save_events T m s f model d az) = true).
Proof.
  unfold save_events. destruct az; splits; try reflexivity; try discriminate.
  - cbv [In]. intros H. repeat (destruct H as [H|H]; [discriminate|]). exact H.
  - cbv [In]. intros H. repeat (destruct H as [H|H]; [discriminate|]). exact H.
Qed.

Lemma closing_events_parts T a model d tr :
  reports (closing_events T a model d tr) = [] /\
  answers (closing_events T a model d tr) = [] /\
  logged (closing_events T a model d tr) = [].
Proof.
  unfold closing_events.
  rewrite reports_app, answers_app, logged_app.
  destruct (save_training_results a).
  - destruct (save_events_parts T (trained_model_filepath a)
                (training_statistics_filepath a) (training_figures_filepath a)
                model d (use_azure a)) as (-> & -> & -> & _).
    destruct (use_azure a && negb (is_some tr)); repeat split.
  - destruct (use_azure a && negb (is_some tr)); repeat split.
Qed.

Lemma save_done_parts T m s f model d :
  reports (save_done T m s f model d false) = [] /\
  answers (save_done T m s f model d false) = [] /\
  logged (save_done T m s f model d false) = [] /\
  logged_lists (save_done T m s f model d false) = [] /\
  ~ In RunComplete (save_done T m s f model d false) /\
  forallb (fun ev => negb (remote ev)) (save_done T m s f model d false) = true.
Proof.
  unfold save_done.
  destruct (isdir T (Dirname (Joinpath ProjectDir m)));
    [destruct (isdir T (Joinpath ProjectDir s));
     [destruct (isdir T (Joinpath ProjectDir f))|]|];
    splits; try reflexivity; cbv [In]; intros H;
    repeat (destruct H as [H|H]; [discriminate|]); exact H.
Qed.

Section Extras.

Variable T : backend.
Variable D : tensor_dataset.

(** What comes after the loop tells the trial nothing. *)
Lemma tail_silent a trial r (w' : world T) tail :
  match r with
  | Return d =>
      d = lists w' /\ exists model, tail = closing_events T a model d trial
  | Raise FileNotFoundError =>
      use_azure a = false /\
      exists model,
        tail = save_done T (trained_model_filepath a)
                 (training_statistics_filepath a)
                 (training_figures_filepath a) model (lists w') false
  | Raise _ => tail = []
  end ->
  reports tail = [] /\ answers tail = [].
Proof.
  destruct r as [d|e].
  - intros (_ & model & ->).
    destruct (closing_events_parts T a model d trial) as (? & ? & _). auto.
  - destruct e; try (intros ->; split; reflexivity).
    intros (_ & model & ->).
    destruct (save_done_parts T (trained_model_filepath a)
                (training_statistics_filepath a) (training_figures_filepath a)
                model (lists w')) as (? & ? & _).
    auto.
Qed.

(** X1: with a trial handle, what the trial is told is the recorded
    validation accuracy of each epoch, with the epoch index as step, one
    report per recorded epoch and in order; it is asked once per report,
    and only the last answer can have been [True], exactly when the call
    ends in [TrialPruned]. *)
Theorem trial_sees_every_epoch a t g :
  let out := call T D a (Some t) g in
  let va := val_accuracies (lists (snd out)) in
  reports (trace (snd out)) = combine va (seq 0 (List.length va)) /\
  answers (trace (snd out)) =
    match va with
    | [] => []
    | _ :: rest => repeat false (List.length rest) ++ [pruned (fst out)]
    end.
Proof.
  cbv zeta. destruct (call T D a (Some t) g) as [r w'] eqn:Hcall.
  cbn [fst snd].
  destruct (call_shape T D a (Some t) g r w' Hcall) as (_ & tail & Htr & Htail).
  rewrite Htr. unfold call_trace. cbn [is_some].
  rewrite !reports_app, !answers_app.
  destruct (setup_events_parts T a) as (-> & -> & _).
  rewrite reports_trial_events, answers_trial_events. cbn [app].
  destruct (tail_silent a (Some t) r w' tail Htail) as [-> ->].
  rewrite !app_nil_r. split; reflexivity.
Qed.

(** X2: without a trial handle nothing is reported, nothing is asked, and
    the call never ends in [TrialPruned]. *)
Theorem no_handle_no_pruning a g :
  let out := call T D a None g in
  reports (trace (snd out)) = [] /\
  answers (trace (snd out)) = [] /\
  fst out <> Raise TrialPruned.
Proof.
  cbv zeta. destruct (call T D a None g) as [r w'] eqn:Hcall.
  cbn [fst snd].
  destruct (call_shape T D a None g r w' Hcall) as (_ & tail & Htr & Htail).
  rewrite Htr. unfold call_trace. cbn [is_some app].
  rewrite !reports_app, !answers_app.
  destruct (setup_events_parts T a) as (-> & -> & _). cbn [app].
  destruct (tail_silent a None r w' tail Htail) as [-> ->].
  splits; try reflexivity.
  intros ->. unfold call in Hcall.
  destruct (train_model_run T D a (mkWorld g None no_history [])) as [Hpost _].
  rewrite Hcall in Hpost. cbn [fst snd call_post] in Hpost.
  destruct Hpost as (_ & _ & _ & _ & _ & _ & _ & _ & _ & _ & Hno).
  apply Hno. reflexivity.
Qed.

(** X3: a local call ([use_azure] off) never touches the Azure run (which
    is [None] then), downloads nothing and creates no directory. *)
Theorem local_call_stays_local a trial g :
  use_azure a = false ->
  forallb (fun ev => negb (remote ev)) (trace (snd (call T D a trial g))) = true.
Proof.
  intros Haz. destruct (call T D a trial g) as [r w'] eqn:Hcall.
  cbn [snd].
  destruct (call_shape T D a trial g r w' Hcall) as (_ & tail & Htr & Htail).
  rewrite Htr. unfold call_trace.
  destruct (setup_events_parts T a) as (_ & _ & _ & _ & Hs).
  rewrite (Hs Haz). cbn [app]. rewrite forallb_app.
  apply andb_true_iff. split.
  - destruct (is_some trial); [|reflexivity].
    apply trial_events_quiet_parts.
  - destruct r as [d|e].
    + destruct Htail as (_ & model & ->).
      unfold closing_events. rewrite Haz. cbn [andb app]. rewrite app_nil_r.
      destruct (save_training_results a); [|reflexivity].
      apply save_events_parts. reflexivity.
    + destruct e; try (subst tail; reflexivity).
      destruct Htail as (_ & model & ->). apply save_done_parts.
Qed.

End Extras.

Lemma trial_events_no_complete {net} vs s fin :
  ~ In RunComplete (@trial_events net vs s fin).
Proof.
  revert s. induction vs as [|v rest IH]; intros s; [intros []|].
  cbn [trial_events In]. intros [H|[H|H]]; try discriminate.
  exact (IH _ H).
Qed.

Lemma setup_events_no_complete T a : ~ In RunComplete (setup_events T a).
Proof.
  unfold setup_events. destruct (use_azure a); cbv [In]; intros H;
    repeat (destruct H as [H|H]; [discriminate|]); exact H.
Qed.

Section MoreExtras.

Variable T : backend.
Variable D : tensor_dataset.

(** X4: [run.complete()] is called exactly when the call runs as an Azure
    job, has no trial handle and returns; it is then the last thing the
    call does, and it happens once. *)
Theorem run_complete_iff a trial g :
  let out := call T D a trial g in
  (In RunComplete (trace (snd out)) <->
   use_azure a = true /\ trial = None /\ raised (fst out) = false) /\
  (In RunComplete (trace (snd out)) ->
   exists pre, trace (snd out) = pre ++ [RunComplete] /\ ~ In RunComplete pre).
Proof.
  cbv zeta. destruct (call T D a trial g) as [r w'] eqn:Hcall.
  cbn [fst snd].
  destruct (call_shape T D a trial g r w' Hcall) as (_ & tail & Htr & Htail).
  rewrite Htr. unfold call_trace.
  set (mid := if is_some trial then _ else _).
  assert (Hmid : ~ In RunComplete mid).
  { unfold mid. destruct (is_some trial); [apply trial_events_no_complete|].
    intros []. }
  pose proof (setup_events_no_complete T a) as Hset.
  assert (Hhead : ~ In RunComplete (setup_events T a ++ mid)).
  { intros H. apply in_app_or in H as [H|H]; auto. }
  destruct r as [d|e].
  - destruct Htail as (_ & model & ->). unfold closing_events.
    set (saved := if save_training_results a then _ else _).
    assert (Hsaved : ~ In RunComplete saved).
    { unfold saved. destruct (save_training_results a); [|intros []].
      apply save_events_parts. }
    assert (Hpre : ~ In RunComplete ((setup_events T a ++ mid) ++ saved)).
    { intros H. apply in_app_or in H as [H|H]; contradiction. }
    replace (setup_events T a ++ mid ++
             saved ++ (if use_azure a && negb (is_some trial)
                       then [RunComplete] else []))
      with (((setup_events T a ++ mid) ++ saved) ++
            (if use_azure a && negb (is_some trial)
             then [@RunComplete (net T)] else []))
      by (rewrite <- !app_assoc; reflexivity).
    set (pre := (setup_events T a ++ mid) ++ saved) in *.
    cbn [raised].
    destruct (use_azure a && negb (is_some trial)) eqn:Hc.
    + apply andb_true_iff in Hc as [Haz Hno].
      assert (Hnone : trial = None) by (destruct trial; [discriminate | reflexivity]).
      split.
      * split; [auto|]. intros _. apply in_or_app. right. left. reflexivity.
      * intros _. exists pre. auto.
    + rewrite app_nil_r. split; [split|]; try contradiction.
      intros (Haz & -> & _). rewrite Haz in Hc. discriminate.
  - assert (Htl : ~ In RunComplete tail).
    { destruct e; try (subst tail; intros []).
      destruct Htail as (_ & model & ->). apply save_done_parts. }
    assert (Hall : ~ In RunComplete (setup_events T a ++ mid ++ tail)).
    { rewrite app_assoc. intros H. apply in_app_or in H as [H|H]; auto. }
    cbn [raised]. split.
    + split; [contradiction | intros (_ & _ & H); discriminate].
    + contradiction.
Qed.


(** What the Azure run is sent, by kind. *)
Lemma call_logs a trial g :
  use_azure a = true ->
  let out := call T D a trial g in
  logged (trace (snd out)) =
    [("Learning rate"%string, learning_rate a);
     ("Epochs"%string, inject_Z (epochs a));
     ("Dropout"%string, dropout_p a)] /\
  logged_lists (trace (snd out)) =
    match fst out with
    | Return d =>
        if save_training_results a
        then [("Train loss"%string, train_losses d);
              ("Train accuracy"%string, train_accuracies d);
              ("Validation loss"%string, val_losses d);
              ("Validation accuracy"%string, val_accuracies d)]
        else []
    | Raise _ => []
    end.
Proof.
  intros Haz. cbv zeta. destruct (call T D a trial g) as [r w'] eqn:Hcall.
  cbn [fst snd].
  destruct (call_shape T D a trial g r w' Hcall) as (_ & tail & Htr & Htail).
  rewrite Htr. unfold call_trace.
  rewrite !logged_app, !logged_lists_app.
  destruct (setup_events_parts T a) as (_ & _ & -> & -> & _). rewrite Haz.
  assert (Hmid : logged (if is_some trial
                         then @trial_events (net T)
                                (val_accuracies (lists w')) 0 (pruned r)
                         else []) = [] /\
                 logged_lists (if is_some trial
                               then @trial_events (net T)
                                      (val_accuracies (lists w')) 0 (pruned r)
                               else []) = []).
  { destruct (is_some trial); [|split; reflexivity].
    split; apply trial_events_quiet_parts. }
  destruct Hmid as [-> ->]. cbn [app].
  destruct r as [d|e].
  2:{ destruct e; try (subst tail; split; reflexivity).
      destruct Htail as (Hlocal & _). congruence. }
  destruct Htail as (_ & model & ->).
  destruct (closing_events_parts T a model d trial) as (_ & _ & ->).
  split; [reflexivity|].
  unfold closing_events. rewrite logged_lists_app, Haz.
  assert (Hc : logged_lists
                 (if true && negb (is_some trial)
                  then [@RunComplete (net T)] else []) = [])
    by (destruct (true && negb (is_some trial)); reflexivity).
  rewrite Hc, app_nil_r.
  destruct (save_training_results a); [|reflexivity].
  destruct (save_events_parts T (trained_model_filepath a)
              (training_statistics_filepath a) (training_figures_filepath a)
              model d true) as (_ & _ & _ & -> & _).
  reflexivity.
Qed.

(** X7: as an Azure job the call logs the three hyperparameters, whatever
    happens next; the four metric series are logged only by a call that
    returns with [save_training_results] set, under the names "Train
    loss", "Train accuracy", "Validation loss" and "Validation accuracy",
    and they are the returned lists. *)
Theorem azure_run_receives a trial g :
  use_azure a = true ->
  let out := call T D a trial g in
  logged (trace (snd out)) =
    [("Learning rate"%string, learning_rate a);
     ("Epochs"%string, inject_Z (epochs a));
     ("Dropout"%string, dropout_p a)] /\
  logged_lists (trace (snd out)) =
    match fst out with
    | Return d =>
        if save_training_results a
        then [("Train loss"%string, train_losses d);
              ("Train accuracy"%string, train_accuracies d);
              ("Validation loss"%string, val_losses d);
              ("Validation accuracy"%string, val_accuracies d)]
        else []
    | Raise _ => []
    end.
Proof. exact (call_logs a trial g). Qed.

(** X8: however a call ends, its four lists have one common length, at
    most [max_epochs], and exactly [max_epochs] when it returns. *)
Theorem history_rectangular a trial g :
  let out := call T D a trial g in
  exists n,
    lengths (lists (snd out)) n /\ (n <= Z.to_nat (epochs a))%nat /\
    (raised (fst out) = false -> n = Z.to_nat (epochs a)).
Proof.
  cbv zeta. unfold call.
  destruct (train_model_run T D a (mkWorld g trial no_history [])) as [Hpost _].
  destruct (train_model T D a (mkWorld g trial no_history [])) as [[d|e] w'];
    cbn [fst snd call_post raised] in *.
  - destruct Hpost as (-> & Hl & _). exists (Z.to_nat (epochs a)). auto.
  - assert (Hother : lists w' = no_history ->
                     exists n, lengths (lists w') n /\
                               (n <= Z.to_nat (epochs a))%nat /\
                               (true = false -> n = Z.to_nat (epochs a))).
    { intros ->. exists 0%nat. unfold lengths. cbn.
      splits; try reflexivity; lia. }
    destruct e; try (apply Hother; apply Hpost).
    + destruct Hpost as (added & v & k & tr' & _ & _ & Hk & Hl & _).
      exists (S k). splits; [exact Hl | lia | discriminate].
    + destruct Hpost as (_ & _ & Hl & _).
      exists (Z.to_nat (epochs a)). splits; [exact Hl | lia | reflexivity].
Qed.

End MoreExtras.

Section Errors.

Variable T : backend.
Variable D : tensor_dataset.

Lemma first_batch_ok l (w : world T) :
  randperm_ok T -> valid_loader l ->
  exists b w',
    first_batch T l w =
    (if iter_next T then Return b else Raise AttributeError, w').
Proof.
  intros Hp [Hne _]. unfold first_batch.
  rewrite (bind_return _ _ _ _ _ _ _ _ (iterate_run T l w)).
  set (sampler := map _ _).
  assert (Hs : List.length sampler = List.length (subset l)).
  { unfold sampler. apply Permutation_length, shuffled_subset, Hp. }
  destruct sampler as [|x rest].
  { destruct (subset l); [contradiction | discriminate]. }
  pose proof (batch_sampler_nonempty (Z.to_nat (bsize l)) x rest) as Hb.
  destruct (batch_sampler _ _ _) as [|b bs]; [contradiction|].
  exists b. destruct (iter_next T); unfold ret, raise; eexists; reflexivity.
Qed.

Lemma split_data_raises (w : world T) e w' :
  split_data T D w = (Raise e, w') -> e = ValueError.
Proof.
  unfold split_data, random_split.
  destruct (_ =? _)%nat.
  - unfold bind, draw, ret.
    destruct (randperm T (len D) (gen w)). cbn [slices]. discriminate.
  - unfold bind, raise. intros H. injection H as <- _. reflexivity.
Qed.

Lemma prepare_raises a (w : world T) e :
  randperm_ok T -> fst (prepare T D a w) = Raise e ->
  e = ValueError \/ e = AttributeError.
Proof.
  intros Hp. unfold prepare, splitter, reseed.
  unfold bind at 1. unfold bind at 1. unfold set_gen at 1.
  unfold bind at 1. rewrite azure_setup_run.
  set (w1 := mkWorld _ _ _ _).
  destruct (split_data T D w1) as [[[tr va]|e1] w2] eqn:Hsplit.
  2:{ cbn [fst]. intros H. injection H as <-. left.
      exact (split_data_raises _ _ _ Hsplit). }
  destruct (DataLoader_run T tr (batch_size a) w2) as [(tl & Htl & Hvt & _)|Htl].
  2:{ rewrite (bind_raise _ _ _ _ _ _ _ _ Htl). cbn [fst].
      intros [= <-]. left. reflexivity. }
  rewrite (bind_return _ _ _ _ _ _ _ _ Htl).
  destruct (DataLoader_run T va (batch_size a) w2) as [(vl & Hvl & _)|Hvl].
  2:{ rewrite (bind_raise _ _ _ _ _ _ _ _ Hvl). cbn [fst].
      intros [= <-]. left. reflexivity. }
  rewrite (bind_return _ _ _ _ _ _ _ _ Hvl).
  destruct (first_batch_ok tl w2 Hp Hvt) as (b & w3 & Hfb).
  unfold bind at 1. rewrite Hfb.
  destruct (iter_next T).
  - unfold bind at 1. unfold draw at 1.
    destruct (Classifier T (dropout_p a) (gen w3)).
    unfold bind at 1. rewrite Adam_run.
    destruct (Qle_bool 0 (learning_rate a)); cbn [fst ret];
      [discriminate | intros [= <-]; left; reflexivity].
  - cbn [fst]. intros [= <-]. right. reflexivity.
Qed.

Lemma train_model_early a (w : world T) e :
  fst (prepare T D a w) = Raise e -> fst (train_model T D a w) = Raise e.
Proof.
  unfold train_model. destruct (prepare T D a w) as [rp w1] eqn:H.
  cbn [fst]. intros ->. rewrite (bind_raise _ _ _ _ _ _ _ _ H). reflexivity.
Qed.

(** With data and a batch size the loaders accept, [prepare] ends by what
    line 98 and line 124 make of the installed torch and the learning
    rate. *)
Lemma prepare_outcome a (w : world T) :
  randperm_ok T -> (2 <= len D)%nat -> Z.of_nat (len D) < 2 ^ 48 ->
  1 <= batch_size a ->
  exists tl vl model,
    fst (prepare T D a w) =
    if iter_next T
    then if Qle_bool 0 (learning_rate a)
         then Return (tl, vl, model) else Raise ValueError
    else Raise AttributeError.
Proof.
  intros Hp H2 Hn Hb.
  unfold prepare, splitter, reseed.
  unfold bind at 1. unfold bind at 1. unfold set_gen at 1.
  unfold bind at 1. rewrite azure_setup_run.
  set (w1 := mkWorld _ _ _ _).
  rewrite (split_data_run T D w1 Hn).
  set (idx := fst (randperm T (len D) (gen w1))).
  destruct (split_slices idx (len D) Hn (Hp _ _)) as (Htr & Hva & _).
  set (tr := firstn _ idx) in *. set (va := firstn _ (skipn _ idx)) in *.
  set (w2 := mkWorld _ _ _ _).
  pose proof (train_n_pos _ Hn H2). pose proof (val_n_pos _ Hn ltac:(lia)).
  destruct (DataLoader_run T tr (batch_size a) w2)
    as [(tl & Htl & Hvt & _)|Htl].
  2:{ exfalso. revert Htl. unfold DataLoader.
      destruct (Nat.eqb_spec (List.length tr) 0); [lia|].
      destruct (Z.leb_spec (batch_size a) 0); [lia | discriminate]. }
  rewrite (bind_return _ _ _ _ _ _ _ _ Htl).
  destruct (DataLoader_run T va (batch_size a) w2) as [(vl & Hvl & _)|Hvl].
  2:{ exfalso. revert Hvl. unfold DataLoader.
      destruct (Nat.eqb_spec (List.length va) 0); [lia|].
      destruct (Z.leb_spec (batch_size a) 0); [lia | discriminate]. }
  rewrite (bind_return _ _ _ _ _ _ _ _ Hvl).
  destruct (first_batch_ok tl w2 Hp Hvt) as (b & w3 & Hfb).
  unfold bind at 1. rewrite Hfb.
  destruct (iter_next T).
  - unfold bind at 1. unfold draw at 1.
    destruct (Classifier T (dropout_p a) (gen w3)) as [model g3].
    unfold bind at 1. rewrite Adam_run.
    exists tl, vl, model.
    destruct (Qle_bool 0 (learning_rate a)); reflexivity.
  - exists tl, vl, (fst (Classifier T (dropout_p a) (gen w3))). reflexivity.
Qed.

Lemma prepare_rejects a (w : world T) :
  Z.of_nat (len D) < 2 ^ 48 ->
  (len D < 2)%nat \/ batch_size a <= 0 ->
  fst (prepare T D a w) = Raise ValueError.
Proof.
  intros Hn Hbad. unfold prepare, splitter, reseed.
  unfold bind at 1. unfold bind at 1. unfold set_gen at 1.
  unfold bind at 1. rewrite azure_setup_run.
  set (w1 := mkWorld _ _ _ _).
  rewrite (split_data_run T D w1 Hn).
  set (tr := firstn _ _). set (va := firstn _ _). set (w2 := mkWorld _ _ _ _).
  destruct (DataLoader_run T tr (batch_size a) w2)
    as [(tl & _ & [Hne Hb] & Hs & Hbs)|Htl].
  2:{ rewrite (bind_raise _ _ _ _ _ _ _ _ Htl). reflexivity. }
  exfalso. destruct Hbad as [Hlt|Hle]; [|lia].
  apply Hne. rewrite Hs. unfold tr.
  replace (train_n (len D)) with 0%nat; [reflexivity|].
  destruct (len D) as [|[|n]]; [reflexivity | reflexivity | lia].
Qed.

(** X9: what a call refuses before the loop, in the order of the source.
    A dataset of fewer than two samples or a [batch_size] below one ends
    in the [ValueError] of [DataLoader] (line 89).  With those in order,
    a torch without [next] on its iterators ends in [AttributeError] at
    line 98, and, if it has [next], a negative learning rate ends in the
    [ValueError] of [optim.Adam] (line 124).  A call refused before the loop
    has recorded nothing and written nothing: it has only sent the set-up
    events.  Line 98 never runs out of batches. *)
Theorem errors_before_the_loop a trial g :
  randperm_ok T -> Z.of_nat (len D) < 2 ^ 48 ->
  let out := call T D a trial g in
  ((len D < 2)%nat \/ batch_size a <= 0 -> fst out = Raise ValueError) /\
  ((2 <= len D)%nat -> 1 <= batch_size a -> iter_next T = false ->
   fst out = Raise AttributeError) /\
  ((2 <= len D)%nat -> 1 <= batch_size a -> iter_next T = true ->
   ~ (0 <= learning_rate a)%Q -> fst out = Raise ValueError) /\
  (forall e, fst out = Raise e -> before_loop e = true ->
   lists (snd out) = no_history /\ trace (snd out) = setup_events T a /\
   no_artifact (trace (snd out))) /\
  fst out <> Raise StopIteration.
Proof.
  intros Hp Hn. cbv zeta. unfold call.
  set (w := mkWorld g trial no_history []).
  splits.
  - intros Hbad. apply train_model_early, prepare_rejects; assumption.
  - intros H2 Hb Hnext. apply train_model_early.
    destruct (prepare_outcome a w Hp H2 Hn Hb) as (tl & vl & model & ->).
    rewrite Hnext. reflexivity.
  - intros H2 Hb Hnext Hlr. apply train_model_early.
    destruct (prepare_outcome a w Hp H2 Hn Hb) as (tl & vl & model & ->).
    rewrite Hnext.
    destruct (Qle_bool 0 (learning_rate a)) eqn:Hq; [|reflexivity].
    exfalso. apply Hlr, Qle_bool_iff, Hq.
  - intros e He Hbefore.
    destruct (train_model_run T D a w) as [Hpost _].
    rewrite He in Hpost.
    destruct e; try discriminate Hbefore; cbn [call_post] in Hpost;
      destruct Hpost as (Hl & _ & Htr & _); cbn [lists trace w app] in Hl, Htr;
      rewrite Hl, Htr;
      (splits; [reflexivity | reflexivity |
                apply quiet_no_artifact, setup_events_quiet]).
  - intros He.
    destruct (train_model_run T D a w) as [Hpost _].
    rewrite He in Hpost. cbn [call_post] in Hpost.
    destruct Hpost as (_ & _ & _ & Hraise).
    destruct (prepare_raises a w _ Hp Hraise); discriminate.
Qed.

End Errors.

(** X10: line 77 loses no sample to rounding.  For every length below
    [2^48] the binary64 product truncates to [floor (17 N / 20)]; the two
    sizes add up to [N]; from two samples on neither part is empty and the
    validation part is never the larger one. *)
Theorem split_sizes n :
  Z.of_nat n < 2 ^ 48 ->
  train_n n = (17 * n / 20)%nat /\
  (train_n n + val_n n = n)%nat /\
  ((2 <= n)%nat -> (1 <= val_n n <= train_n n)%nat).
Proof.
  intros Hn. pose proof (train_n_floor n Hn) as Hf.
  pose proof (train_n_le n Hn) as Hle.
  splits; [exact Hf | unfold val_n; lia |].
  intros H2. unfold val_n. rewrite Hf.
  pose proof (Nat.div_mod_eq (17 * n) 20) as Hdm.
  pose proof (Nat.mod_upper_bound (17 * n) 20 ltac:(lia)) as Hr.
  lia.
Qed.

(** * Properties of [train_model_azure.py] *)

Section AzureScript.

Import Azure.
Variable C : service.

Lemma max_from_spec key : forall rest best,
  (max_from key best rest = best /\
   forall x, In x rest -> (key x <= key best)%Q) \/
  (exists pre post,
     rest = pre ++ max_from key best rest :: post /\
     (key best < key (max_from key best rest))%Q /\
     (forall x, In x pre -> (key x < key (max_from key best rest))%Q) /\
     (forall x, In x post -> (key x <= key (max_from key best rest))%Q)).
Proof.
  induction rest as [|x rest IH]; intros best; cbn [max_from].
  - left. split; [reflexivity | intros ? []].
  - destruct (Qle_bool (key x) (key best)) eqn:Hle.
    + apply Qle_bool_iff in Hle.
      destruct (IH best) as [[Hr Hall]|(pre & post & Hsplit & Hlt & Hpre & Hpost)].
      * left. split; [exact Hr|]. intros y [<-|Hy]; [exact Hle | auto].
      * right. exists (x :: pre), post.
        splits; try assumption.
        -- cbn [app]. f_equal. exact Hsplit.
        -- intros y [<-|Hy]; [|auto].
           eapply Qle_lt_trans; eassumption.
    + assert (Hlt : (key best < key x)%Q).
      { apply Qnot_le_lt. intros H. apply Qle_bool_iff in H. congruence. }
      destruct (IH x) as [[Hr Hall]|(pre & post & Hsplit & Hlt' & Hpre & Hpost)].
      * right. exists [], rest. rewrite !Hr.
        splits; try reflexivity; try assumption. intros ? [].
      * right. exists (x :: pre), post.
        splits; try assumption.
        -- cbn [app]. f_equal. exact Hsplit.
        -- eapply Qlt_trans; eassumption.
        -- intros y [<-|Hy]; [assumption | auto].
Qed.

Lemma environment_run t :
  environment C t =
  match glob C "./dist/*" with
  | [] => (Failed ValueError, t ++ preamble)
  | x :: rest =>
      let whl := max_from (getctime C) x rest in
      (Done tt,
       t ++ preamble ++
       [Add_private_pip_wheel whl; Add_pip_package (wheel_url C whl)])
  end.
Proof.
  unfold environment, preamble.
  change (glob C ("./dist" ++ "/*")%string) with (glob C "./dist/*").
  destruct (glob C "./dist/*") as [|x rest];
    cbv [bind call ret fail max_by]; rewrite <- ?app_assoc; reflexivity.
Qed.

Lemma experiment_run v t :
  experiment v t = (Done tt, t ++ submission v).
Proof.
  unfold experiment, submission. cbv [bind call ret].
  rewrite <- ?app_assoc. reflexivity.
Qed.

Lemma download_run t : download t = (Done tt, t ++ downloads).
Proof.
  unfold download, downloads. cbv [bind call ret].
  rewrite <- ?app_assoc. reflexivity.
Qed.

(** [register], case by case: it stops at the first local that was never
    assigned or the first series that is missing or empty. *)
Lemma register_run v t :
  register C v t =
  match e v, lr v with
  | None, _ => (Failed (UnboundLocalError "e"), t ++ [Get_metrics; Get_file_names])
  | Some _, None =>
      (Failed (UnboundLocalError "lr"), t ++ [Get_metrics; Get_file_names])
  | Some epochs, Some learning_rate =>
      match final (metrics C) "Train loss" [],
            final (metrics C) "Train accuracy" [],
            final (metrics C) "Validation loss" [],
            final (metrics C) "Validation accuracy" [] with
      | (Done a, _), (Done b, _), (Done c, _), (Done d, _) =>
          (Done tt,
           t ++ [Get_metrics; Get_file_names;
                 registration epochs learning_rate a b c d])
      | (Failed err, _), _, _, _
      | (Done _, _), (Failed err, _), _, _
      | (Done _, _), (Done _, _), (Failed err, _), _
      | (Done _, _), (Done _, _), (Done _, _), (Failed err, _) =>
          (Failed err, t ++ [Get_metrics; Get_file_names])
      end
  end.
Proof.
  unfold register, registration, final.
  destruct (e v) as [epochs|]; [|cbv [bind call ret fail load];
                                  rewrite <- ?app_assoc; reflexivity].
  destruct (lr v) as [learning_rate|]; [|cbv [bind call ret fail load];
                                          rewrite <- ?app_assoc; reflexivity].
  destruct (metrics C "Train loss") as [[|a la]|];
    try (cbv [bind call ret fail load]; rewrite <- ?app_assoc; reflexivity).
  destruct (metrics C "Train accuracy") as [[|b lb]|];
    try (cbv [bind call ret fail load]; rewrite <- ?app_assoc; reflexivity).
  destruct (metrics C "Validation loss") as [[|c lc]|];
    try (cbv [bind call ret fail load]; rewrite <- ?app_assoc; reflexivity).
  destruct (metrics C "Validation accuracy") as [[|d ld]|];
    cbv [bind call ret fail load]; rewrite <- ?app_assoc; reflexivity.
Qed.

End AzureScript.

Section AzureRuns.

Import Azure.
Variable C : service.

(** The trace up to the end of the submitted run. *)
Lemma run_shape use_optuna train_final x rest :
  glob C "./dist/*" = x :: rest ->
  let whl := max_from (getctime C) x rest in
  let v := configure use_optuna train_final in
  let t0 := preamble ++
            [Add_private_pip_wheel whl; Add_pip_package (wheel_url C whl)] ++
            submission v in
  run C use_optuna train_final =
  if use_optuna then (Done tt, t0 ++ downloads)
  else match register C v t0 with
       | (Done _, t1) => (Done tt, t1 ++ downloads)
       | (Failed err, t1) => (Failed err, t1)
       end.
Proof.
  intros Hglob. cbv zeta. unfold run, main.
  unfold bind at 1. rewrite environment_run, Hglob. cbv zeta.
  unfold bind at 1. rewrite experiment_run. cbn [app].
  rewrite <- !app_assoc. cbn [app].
  destruct use_optuna; cbn [negb].
  - unfold bind at 1. unfold ret at 1. rewrite download_run.
    rewrite <- !app_assoc. reflexivity.
  - unfold bind at 1.
    destruct (register C (configure false train_final) _) as [[[]|err] t1];
      [rewrite download_run|]; reflexivity.
Qed.

(** X11: with nothing in [./dist] the script stops at [max()] with a
    [ValueError], whatever the flags: no wheel is uploaded and nothing is
    submitted. *)
Theorem empty_dist_fails use_optuna train_final :
  glob C "./dist/*" = [] ->
  run C use_optuna train_final = (Failed ValueError, preamble).
Proof.
  intros Hglob. unfold run, main.
  unfold bind at 1. rewrite environment_run, Hglob. reflexivity.
Qed.

(** X12: the wheel that goes into the environment is the newest file of
    [./dist], the first of them in the listing order if several share the
    newest creation time. *)
Theorem newest_wheel_is_uploaded files :
  glob C "./dist/*" = files -> files <> [] ->
  exists whl pre post,
    environment C [] =
      (Done tt,
       preamble ++
       [Add_private_pip_wheel whl; Add_pip_package (wheel_url C whl)]) /\
    files = pre ++ whl :: post /\
    (forall f, In f pre -> (getctime C f < getctime C whl)%Q) /\
    (forall f, In f post -> (getctime C f <= getctime C whl)%Q).
Proof.
  intros Hglob Hne. destruct files as [|x rest]; [contradiction|].
  exists (max_from (getctime C) x rest).
  rewrite environment_run, Hglob. cbn [app].
  destruct (max_from_spec (getctime C) rest x)
    as [[Hr Hall]|(pre & post & Hsplit & Hlt & Hpre & Hpost)].
  - exists [], rest. rewrite Hr.
    splits; try reflexivity; [intros ? [] | exact Hall].
  - exists (x :: pre), post. splits; try reflexivity; try assumption.
    + cbn [app]. f_equal. exact Hsplit.
    + intros f [<-|Hf]; [assumption | auto].
Qed.

(** X13: with [--train_final] (and without [--use_optuna]) the script
    fails with [UnboundLocalError] on [e]: only the default branch assigns
    [e] and [lr], and the registration reads them.  This happens after the
    run has been submitted and waited for; no model is registered and no
    file is downloaded. *)
Theorem train_final_fails_after_the_run :
  glob C "./dist/*" <> [] ->
  fst (run C false true) = Failed (UnboundLocalError "e") /\
  In Wait_for_completion (snd (run C false true)) /\
  forallb (fun c => negb (is_register c) && negb (is_download c))
    (snd (run C false true)) = true.
Proof.
  intros Hne. destruct (glob C "./dist/*") as [|x rest] eqn:Hglob;
    [contradiction|].
  rewrite (run_shape false true x rest Hglob). cbv zeta.
  rewrite register_run. cbn [configure e lr fst snd].
  splits; [reflexivity | |reflexivity].
  apply in_or_app. left. apply in_or_app. right.
  apply in_or_app. right. unfold submission. cbn [In]. auto.
Qed.

(** X14: with [--use_optuna] the tuning script is submitted without
    arguments, whether or not [--train_final] is given too; the metrics
    are not read and no model is registered, but the outputs are
    downloaded. *)
Theorem optuna_mode train_final :
  glob C "./dist/*" <> [] ->
  fst (run C true train_final) = Done tt /\
  In (ScriptRunConfig "./src/models" "hyperparameter_tuning.py" None)
    (snd (run C true train_final)) /\
  ~ In Get_metrics (snd (run C true train_final)) /\
  forallb (fun c => negb (is_register c)) (snd (run C true train_final)) = true /\
  In (Download_files "outputs" "azure-downloaded-files")
    (snd (run C true train_final)).
Proof.
  intros Hne. destruct (glob C "./dist/*") as [|x rest] eqn:Hglob;
    [contradiction|].
  rewrite (run_shape true train_final x rest Hglob). cbv zeta.
  cbn [configure fst snd]. unfold submission, downloads, preamble.
  cbn [script script_args app].
  splits; try reflexivity.
  - cbn [In]. auto 10.
  - cbn [In]. intros H.
    repeat (destruct H as [H|H]; [discriminate|]). exact H.
  - cbn [In]. auto 12.
Qed.

End AzureRuns.

Section AzureRegistration.

Import Azure.
Variable C : service.

Lemma register_default_cases t :
  (exists a la b lb c lc d ld,
     metrics C "Train loss" = Some (a :: la) /\
     metrics C "Train accuracy" = Some (b :: lb) /\
     metrics C "Validation loss" = Some (c :: lc) /\
     metrics C "Validation accuracy" = Some (d :: ld) /\
     register C (configure false false) t =
       (Done tt,
        t ++ [Get_metrics; Get_file_names;
              registration 50 (38434 # 100000000)
                (last la a) (last lb b) (last lc c) (last ld d)])) \/
  (exists err k,
     In k metric_names /\
     (metrics C k = None /\ err = KeyError k \/
      metrics C k = Some [] /\ err = IndexError) /\
     register C (configure false false) t =
       (Failed err, t ++ [Get_metrics; Get_file_names])).
Proof.
  rewrite register_run. cbn [configure e lr]. unfold final, metric_names.
  destruct (metrics C "Train loss") as [[|a la]|] eqn:H1.
  1,3: right; eexists _, "Train loss"%string;
       (split; [cbn [In]; auto|]); (split; [|reflexivity]); auto.
  destruct (metrics C "Train accuracy") as [[|b lb]|] eqn:H2.
  1,3: right; eexists _, "Train accuracy"%string;
       (split; [cbn [In]; auto|]); (split; [|reflexivity]); auto.
  destruct (metrics C "Validation loss") as [[|c lc]|] eqn:H3.
  1,3: right; eexists _, "Validation loss"%string;
       (split; [cbn [In]; auto|]); (split; [|reflexivity]); auto.
  destruct (metrics C "Validation accuracy") as [[|d ld]|] eqn:H4.
  1,3: right; eexists _, "Validation accuracy"%string;
       (split; [cbn [In]; auto 6|]); (split; [|reflexivity]); auto.
  left. exists a, la, b, lb, c, lc, d, ld. cbv [ret fail]. auto 6.
Qed.

(** X15: in the default mode the model is registered, and the outputs are
    downloaded, exactly when the finished run has a non-empty series under
    each of the four metric names; the registered properties are 50
    epochs, the fixed learning rate and the last value of each series.  A
    missing series stops the script with [KeyError], an empty one with
    [IndexError]; nothing is registered or downloaded then. *)
Theorem default_mode_registers :
  glob C "./dist/*" <> [] ->
  (fst (run C false false) = Done tt <->
   forall k, In k metric_names -> exists x l, metrics C k = Some (x :: l)) /\
  (forall a la b lb c lc d ld,
     metrics C "Train loss" = Some (a :: la) ->
     metrics C "Train accuracy" = Some (b :: lb) ->
     metrics C "Validation loss" = Some (c :: lc) ->
     metrics C "Validation accuracy" = Some (d :: ld) ->
     In (registration 50 (38434 # 100000000)
           (last la a) (last lb b) (last lc c) (last ld d))
        (snd (run C false false)) /\
     In (Download_files "outputs" "azure-downloaded-files")
        (snd (run C false false))) /\
  (forall err, fst (run C false false) = Failed err ->
     (err = IndexError \/ exists k, In k metric_names /\ err = KeyError k) /\
     forallb (fun c => negb (is_register c) && negb (is_download c))
       (snd (run C false false)) = true).
Proof.
  intros Hne. destruct (glob C "./dist/*") as [|x rest] eqn:Hglob;
    [contradiction|].
  rewrite (run_shape C false false x rest Hglob). cbv zeta.
  set (t0 := preamble ++ _).
  destruct (register_default_cases t0)
    as [(a & la & b & lb & c & lc & d & ld & H1 & H2 & H3 & H4 & ->)
       |(err & k & Hk & Hwhy & ->)]; cbn [fst snd].
  - splits.
    + split; [|reflexivity]. intros _ k Hk. unfold metric_names in Hk.
      cbn [In] in Hk.
      destruct Hk as [<-|[<-|[<-|[<-|[]]]]]; eauto.
    + intros a' la' b' lb' c' lc' d' ld' E1 E2 E3 E4.
      rewrite H1 in E1. rewrite H2 in E2. rewrite H3 in E3. rewrite H4 in E4.
      injection E1 as <- <-. injection E2 as <- <-.
      injection E3 as <- <-. injection E4 as <- <-.
      split.
      * apply in_or_app. left. apply in_or_app. right. cbn [In]. auto.
      * apply in_or_app. right. unfold downloads. cbn [In]. auto.
    + discriminate.
  - splits.
    + split; [discriminate|]. intros Hall.
      destruct (Hall k Hk) as (y & l & Hy).
      destruct Hwhy as [[Hn _]|[Hn _]]; rewrite Hy in Hn; discriminate.
    + intros a la b lb c lc d ld E1 E2 E3 E4. exfalso.
      unfold metric_names in Hk. cbn [In] in Hk.
      destruct Hk as [<-|[<-|[<-|[<-|[]]]]];
        destruct Hwhy as [[Hn _]|[Hn _]]; congruence.
    + intros err' [= <-]. split.
      * destruct Hwhy as [[_ ->]|[_ ->]]; [right; exists k; auto | left; reflexivity].
      * unfold t0. rewrite !forallb_app. reflexivity.
Qed.

End AzureRegistration.

Lemma last_cons_default {A} (l : list A) : forall x d,
  last (x :: l) d = last l x.
Proof.
  induction l as [|y l IH]; intros x d; [reflexivity|].
  change (last (x :: y :: l) d) with (last (y :: l) d).
  rewrite (IH y d), (IH y x). reflexivity.
Qed.

Section AcrossFiles.

Variable T : backend.
Variable D : tensor_dataset.
Variable C : Azure.service.

(** X16: the two files agree on the metric names.  When the finished run
    was a returning call of [train_model] as an Azure job, with
    persistence on and at least one epoch, and the service hands back the
    series that call logged, [register] finds all four series and registers
    the last entry of each returned list. *)
Theorem logged_series_register a trial g d t :
  use_azure a = true -> save_training_results a = true -> 1 <= epochs a ->
  fst (call T D a trial g) = Return d ->
  (forall name vs,
     In (name, vs) (logged_lists (trace (snd (call T D a trial g)))) ->
     Azure.metrics C name = Some vs) ->
  Azure.register C (Azure.configure false false) t =
  (Azure.Done tt,
   t ++ [Azure.Get_metrics; Azure.Get_file_names;
         Azure.registration 50 (38434 # 100000000)
           (last (train_losses d) 0%Q) (last (train_accuracies d) 0%Q)
           (last (val_losses d) 0%Q) (last (val_accuracies d) 0%Q)]).
Proof.
  intros Haz Hsave He Hret Hserv.
  destruct (call_logs T D a trial g Haz) as [_ Hlists].
  assert (Hlen : lengths d (Z.to_nat (epochs a))).
  { unfold call in Hret.
    destruct (train_model_run T D a (mkWorld g trial no_history [])) as [Hpost _].
    rewrite Hret in Hpost. apply Hpost. }
  rewrite Hret, Hsave in Hlists. rewrite Hlists in Hserv.
  destruct Hlen as (L1 & L2 & L3 & L4).
  destruct (train_losses d) as [|x1 l1] eqn:E1; [cbn in L1; lia|].
  destruct (train_accuracies d) as [|x2 l2] eqn:E2; [cbn in L2; lia|].
  destruct (val_losses d) as [|x3 l3] eqn:E3; [cbn in L3; lia|].
  destruct (val_accuracies d) as [|x4 l4] eqn:E4; [cbn in L4; lia|].
  rewrite !last_cons_default.
  destruct (register_default_cases C t)
    as [(a1 & la & b1 & lb & c1 & lc & d1 & ld & H1 & H2 & H3 & H4 & ->)
       |(err & k & Hk & Hwhy & _)].
  - rewrite (Hserv "Train loss"%string (x1 :: l1)) in H1 by (cbn [In]; auto).
    rewrite (Hserv "Train accuracy"%string (x2 :: l2)) in H2 by (cbn [In]; auto).
    rewrite (Hserv "Validation loss"%string (x3 :: l3)) in H3 by (cbn [In]; auto).
    rewrite (Hserv "Validation accuracy"%string (x4 :: l4)) in H4
      by (cbn [In]; auto 6).
    injection H1 as <- <-. injection H2 as <- <-.
    injection H3 as <- <-. injection H4 as <- <-. reflexivity.
  - exfalso. unfold Azure.metric_names in Hk. cbn [In] in Hk.
    destruct Hk as [<-|[<-|[<-|[<-|[]]]]].
    + rewrite (Hserv "Train loss"%string (x1 :: l1)) in Hwhy by (cbn [In]; auto).
      destruct Hwhy as [[? _]|[? _]]; discriminate.
    + rewrite (Hserv "Train accuracy"%string (x2 :: l2)) in Hwhy
        by (cbn [In]; auto).
      destruct Hwhy as [[? _]|[? _]]; discriminate.
    + rewrite (Hserv "Validation loss"%string (x3 :: l3)) in Hwhy
        by (cbn [In]; auto).
      destruct Hwhy as [[? _]|[? _]]; discriminate.
    + rewrite (Hserv "Validation accuracy"%string (x4 :: l4)) in Hwhy
        by (cbn [In]; auto 6).
      destruct Hwhy as [[? _]|[? _]]; discriminate.
Qed.

End AcrossFiles.

(** * Concrete runs for the further properties *)

Lemma local_call_stays_local_witness :
  use_azure (Toy.run 2 4) = false /\
  forallb (fun ev => negb (remote ev))
    (trace (snd (call (Toy.torch 5) (Toy.data 20) (Toy.run 2 4)
                   (Some []) 0%nat))) = true.
Proof.
  assert (H : use_azure (Toy.run 2 4) = false) by reflexivity.
  split; [exact H|].
  apply (local_call_stays_local (Toy.torch 5) (Toy.data 20) (Toy.run 2 4)
           (Some []) 0%nat H).
Defined.

Lemma run_complete_iff_witness :
  exists pre,
    trace (snd (call (Toy.torch 5) (Toy.data 20) (azure_job 2 4) None 0%nat)) =
    pre ++ [RunComplete] /\ ~ In RunComplete pre.
Proof.
  destruct (run_complete_iff (Toy.torch 5) (Toy.data 20) (azure_job 2 4)
              None 0%nat) as [Hiff Hlast].
  apply Hlast, Hiff. splits; [reflexivity | reflexivity |].
  vm_compute. reflexivity.
Defined.

(** A call with a trial on a disk without [reports/]: two epochs, two
    questions answered [False], then [FileNotFoundError] from the pickle. *)
Lemma trial_sees_every_epoch_witness :
  let out := call (Toy.torch_on Toy.only_models 5) (Toy.data 20) (Toy.run 2 4)
               (Some []) 0%nat in
  fst out = Raise FileNotFoundError /\
  answers (trace (snd out)) = [false; false].
Proof.
  cbv zeta.
  assert (Hr : fst (call (Toy.torch_on Toy.only_models 5) (Toy.data 20)
                      (Toy.run 2 4) (Some []) 0%nat) =
               Raise FileNotFoundError) by (vm_compute; reflexivity).
  split; [exact Hr|].
  pose proof (proj2 (trial_sees_every_epoch (Toy.torch_on Toy.only_models 5)
                       (Toy.data 20) (Toy.run 2 4) [] 0%nat)) as H.
  cbv zeta in H. apply (eq_trans H). vm_compute. reflexivity.
Defined.


Lemma azure_run_receives_witness :
  use_azure (azure_job 2 4) = true /\
  logged (trace (snd (call (Toy.torch 5) (Toy.data 20) (azure_job 2 4)
                        None 0%nat))) =
    [("Learning rate"%string, 1 # 1000); ("Epochs"%string, inject_Z 2);
     ("Dropout"%string, 21 # 1000)].
Proof.
  assert (H : use_azure (azure_job 2 4) = true) by reflexivity.
  split; [exact H|].
  exact (proj1 (azure_run_receives (Toy.torch 5) (Toy.data 20)
                  (azure_job 2 4) None 0%nat H)).
Defined.

Lemma errors_before_the_loop_witness :
  Z.of_nat (len (Toy.data 20)) < 2 ^ 48 /\
  batch_size (Toy.run 2 0) <= 0 /\
  fst (call (Toy.torch 5) (Toy.data 20) (Toy.run 2 0) None 0%nat) =
    Raise ValueError.
Proof.
  assert (H : Z.of_nat (len (Toy.data 20)) < 2 ^ 48) by (cbn; lia).
  assert (Hb : batch_size (Toy.run 2 0) <= 0) by (cbn; lia).
  splits; [exact H | exact Hb |].
  exact (proj1 (errors_before_the_loop (Toy.torch 5) (Toy.data 20)
                  (Toy.run 2 0) None 0%nat (toy_randperm_ok 5) H)
           (or_intror Hb)).
Defined.

Lemma split_sizes_witness :
  Z.of_nat 103 < 2 ^ 48 /\ train_n 103 = (17 * 103 / 20)%nat.
Proof.
  assert (H : Z.of_nat 103 < 2 ^ 48) by lia.
  split; [exact H|]. exact (proj1 (split_sizes 103 H)).
Defined.

Lemma empty_dist_fails_witness :
  Azure.glob (toy_service [] []) "./dist/*" = [] /\
  Azure.run (toy_service [] []) false false =
    (Azure.Failed Azure.ValueError, Azure.preamble).
Proof.
  assert (H : Azure.glob (toy_service [] []) "./dist/*" = []) by reflexivity.
  split; [exact H|].
  apply (empty_dist_fails (toy_service [] []) false false H).
Defined.

Lemma newest_wheel_is_uploaded_witness :
  map fst toy_dist <> [] /\
  exists whl pre post,
    Azure.environment (toy_service toy_dist []) [] =
      (Azure.Done tt,
       Azure.preamble ++
       [Azure.Add_private_pip_wheel whl;
        Azure.Add_pip_package (Azure.wheel_url (toy_service toy_dist []) whl)]) /\
    map fst toy_dist = pre ++ whl :: post /\
    (forall f, In f pre ->
       (Azure.getctime (toy_service toy_dist []) f <
        Azure.getctime (toy_service toy_dist []) whl)%Q) /\
    (forall f, In f post ->
       (Azure.getctime (toy_service toy_dist []) f <=
        Azure.getctime (toy_service toy_dist []) whl)%Q).
Proof.
  assert (H : map fst toy_dist <> []) by discriminate.
  split; [exact H|].
  apply (newest_wheel_is_uploaded (toy_service toy_dist []) (map fst toy_dist)
           eq_refl H).
Defined.

Lemma train_final_fails_after_the_run_witness :
  Azure.glob (toy_service toy_dist toy_series) "./dist/*" <> [] /\
  fst (Azure.run (toy_service toy_dist toy_series) false true) =
    Azure.Failed (Azure.UnboundLocalError "e").
Proof.
  assert (H : Azure.glob (toy_service toy_dist toy_series) "./dist/*" <> [])
    by discriminate.
  split; [exact H|].
  exact (proj1 (train_final_fails_after_the_run
                  (toy_service toy_dist toy_series) H)).
Defined.

Lemma optuna_mode_witness :
  Azure.glob (toy_service toy_dist []) "./dist/*" <> [] /\
  fst (Azure.run (toy_service toy_dist []) true true) = Azure.Done tt.
Proof.
  assert (H : Azure.glob (toy_service toy_dist []) "./dist/*" <> [])
    by discriminate.
  split; [exact H|].
  exact (proj1 (optuna_mode (toy_service toy_dist []) true H)).
Defined.

Lemma default_mode_registers_witness :
  Azure.glob (toy_service toy_dist toy_series) "./dist/*" <> [] /\
  (fst (Azure.run (toy_service toy_dist toy_series) false false) =
     Azure.Done tt <->
   forall k, In k Azure.metric_names ->
     exists x l, Azure.metrics (toy_service toy_dist toy_series) k = Some (x :: l)).
Proof.
  assert (H : Azure.glob (toy_service toy_dist toy_series) "./dist/*" <> [])
    by discriminate.
  split; [exact H|].
  exact (proj1 (default_mode_registers (toy_service toy_dist toy_series) H)).
Defined.

Lemma logged_series_register_witness :
  fst (call (Toy.torch 5) (Toy.data 20) (azure_job 2 4) None 0%nat) =
    Return (lists (snd (call (Toy.torch 5) (Toy.data 20) (azure_job 2 4)
                          None 0%nat))) /\
  fst (Azure.register (toy_service toy_dist toy_series)
         (Azure.configure false false) []) = Azure.Done tt.
Proof.
  assert (Hret : fst (call (Toy.torch 5) (Toy.data 20) (azure_job 2 4)
                        None 0%nat) =
                 Return (lists (snd (call (Toy.torch 5) (Toy.data 20)
                                       (azure_job 2 4) None 0%nat))))
    by (vm_compute; reflexivity).
  split; [exact Hret|].
  rewrite (logged_series_register (Toy.torch 5) (Toy.data 20)
             (toy_service toy_dist toy_series) (azure_job 2 4) None 0%nat
             _ [] eq_refl eq_refl ltac:(cbn; lia) Hret).
  - reflexivity.
  - intros name vs Hin. vm_compute in Hin.
    destruct Hin as [Hin|[Hin|[Hin|[Hin|[]]]]];
      injection Hin as <- <-; vm_compute; reflexivity.
Defined.
